(** * q2doc.usage.usage: record dispatch of the QIIME 2 Sphinx extension

    A shallow embedding of [src/q2doc/usage/usage.py].  The Python module
    drives four usage recorders over the code blocks of a document and turns
    the records they collect into docutils nodes.  Python objects are
    modelled by the observations the module makes of them; exceptions are
    an explicit error result; the recorders, the directories known to
    exist, the [save] calls made and a log of calls are threaded as explicit
    state. *)

From Stdlib Require Import String Ascii List Bool Arith Lia.
Import ListNotations.

Local Open Scope string_scope.
Local Open Scope list_scope.

(** String concatenation, as in Python's [+] and f-strings; [++] is kept
    for lists. *)
Infix "+++" := String.append (at level 60, right associativity).

(** ** Exceptions and results *)

Inductive PyError : Type :=
| SyntaxError | ExecError | IndexError | KeyError
| TypeError | ValueError | AttributeError.

Inductive Res (A : Type) : Type :=
| Ok (a : A)
| Err (e : PyError).

Arguments Ok {A} a.
Arguments Err {A} e.

Definition res_bind {A B : Type} (r : Res A) (k : A -> Res B) : Res B :=
  match r with
  | Ok a => k a
  | Err e => Err e
  end.

(** ** Python strings *)

Module PyStr.

(** [s.startswith(c)] for a one-character prefix. *)
Definition startswith (c : ascii) (s : string) : bool :=
  match s with
  | String d _ => Ascii.eqb d c
  | EmptyString => false
  end.

(** [s.endswith(c)] for a one-character suffix. *)
Fixpoint endswith (c : ascii) (s : string) : bool :=
  match s with
  | EmptyString => false
  | String d EmptyString => Ascii.eqb d c
  | String _ s' => endswith c s'
  end.

(** [s.lstrip(c)]. *)
Fixpoint lstrip (c : ascii) (s : string) : string :=
  match s with
  | String d s' => if Ascii.eqb d c then lstrip c s' else s
  | EmptyString => EmptyString
  end.

(** [s.rstrip(c)]: a character is dropped when it is [c] and everything
    after it has been dropped as well. *)
Fixpoint rstrip (c : ascii) (s : string) : string :=
  match s with
  | EmptyString => EmptyString
  | String d s' =>
      match rstrip c s' with
      | EmptyString => if Ascii.eqb d c then EmptyString
                       else String d EmptyString
      | r => String d r
      end
  end.

(** [s.split(c)]: always at least one piece, empty pieces are kept. *)
Fixpoint split (c : ascii) (s : string) : list string :=
  match s with
  | EmptyString => [EmptyString]
  | String d s' =>
      if Ascii.eqb d c then EmptyString :: split c s'
      else match split c s' with
           | p :: ps => String d p :: ps
           | [] => [String d EmptyString]
           end
  end.

(** [s.rfind(c)], with [None] for Python's [-1]. *)
Fixpoint rfind (c : ascii) (s : string) : option nat :=
  match s with
  | EmptyString => None
  | String d s' =>
      match rfind c s' with
      | Some i => Some (S i)
      | None => if Ascii.eqb d c then Some 0 else None
      end
  end.

(** [sep.join(l)]. *)
Definition join (sep : string) (l : list string) : string :=
  String.concat sep l.

End PyStr.

(** ** pathlib and os.path on a POSIX system *)

Module Pathlib.

Definition sep : ascii := "/"%char.

(** A [PurePosixPath]: its root (empty, one slash or two slashes) and its parts,
    the root being the first part of an absolute path. *)
Record PurePath : Type := mkPath {
  root : string;
  parts : list string
}.

(** [_PosixFlavour.splitroot]: exactly two leading slashes are kept,
    any other number collapses to one. *)
Definition splitroot (part : string) : string * string :=
  if PyStr.startswith sep part then
    let stripped := PyStr.lstrip sep part in
    if Nat.eqb (String.length part - String.length stripped) 2
    then ("//", stripped) else ("/", stripped)
  else (EmptyString, part).

Definition keep_component (x : string) : bool :=
  negb (x =? EmptyString)%string && negb (x =? ".")%string.

(** [Path(s)] for one string argument. *)
Definition Path (s : string) : PurePath :=
  let (r, rel) := splitroot s in
  let comps := filter keep_component (PyStr.split sep rel) in
  {| root := r;
     parts := if (r =? EmptyString)%string then comps else r :: comps |}.

(** [str(p)]. *)
Definition str (p : PurePath) : string :=
  let s := if (root p =? EmptyString)%string then PyStr.join "/" (parts p)
           else root p +++ PyStr.join "/" (tl (parts p)) in
  if (s =? EmptyString)%string then "." else s.

(** [p.name]. *)
Definition name (p : PurePath) : string :=
  if Nat.eqb (List.length (parts p)) (if (root p =? EmptyString)%string then 0 else 1)
  then EmptyString else last (parts p) EmptyString.

(** [p.stem]: the name without its last suffix. *)
Definition stem (p : PurePath) : string :=
  let n := name p in
  match PyStr.rfind "."%char n with
  | Some i => if Nat.ltb 0 i && Nat.ltb i (String.length n - 1)
              then substring 0 i n else n
  | None => n
  end.

(** [p / q]: an absolute right operand replaces the left one. *)
Definition div (p q : PurePath) : PurePath :=
  if (root q =? EmptyString)%string
  then {| root := root p; parts := parts p ++ parts q |}
  else q.

(** [l[-2:]]. *)
Definition last_two {A : Type} (l : list A) : list A :=
  skipn (List.length l - 2) l.

(** [os.path.join(a, b)]. *)
Definition os_path_join (a b : string) : string :=
  if PyStr.startswith sep b then b
  else if (a =? EmptyString)%string || PyStr.endswith sep a then a +++ b
  else a +++ "/" +++ b.

End Pathlib.

(** ** Python values the module handles *)

(** The values that reach a truth test, a [str.join] or an example list. *)
Inductive PyObj : Type :=
| PyBool (b : bool)
| PyString (s : string)
| PyLines (l : list string).

(** Truth value of an object: a string or a list is true unless empty. *)
Definition truthy (v : PyObj) : bool :=
  match v with
  | PyBool b => b
  | PyString s => negb (s =? EmptyString)%string
  | PyLines l => negb (Nat.eqb (List.length l) 0)
  end.

(** [a or b] yields [a] when [a] is true and [b] otherwise. *)
Definition py_or (a b : PyObj) : PyObj :=
  if truthy a then a else b.

(** [str.join] on the empty separator: a string is joined character by
    character, which gives the string back. *)
Definition join_empty (v : PyObj) : Res string :=
  match v with
  | PyString s => Ok s
  | PyLines l => Ok (PyStr.join EmptyString l)
  | PyBool _ => Err TypeError
  end.

(** [k in l] for a list of strings. *)
Definition py_in (k : string) (l : list string) : bool :=
  existsb (String.eqb k) l.

(** ** The SDK's results and scope records *)

(** A record's result, by what the module observes of it: an artifact
    shows its semantic type, a metadata value its dataframe. *)
Inductive Result : Type :=
| Artifact (type : string)
| Metadata (dataframe : string).

(** [isinstance(result, qiime2.metadata.metadata.Metadata)]. *)
Definition is_metadata (r : Result) : bool :=
  match r with
  | Metadata _ => true
  | Artifact _ => false
  end.

(** [f"{artifact.type}"]. *)
Definition result_type (r : Result) : Res string :=
  match r with
  | Artifact t => Ok t
  | Metadata _ => Err AttributeError
  end.

(** [str(metadata.to_dataframe())]. *)
Definition to_dataframe_str (r : Result) : Res string :=
  match r with
  | Metadata df => Ok df
  | Artifact _ => Err AttributeError
  end.

Record ScopeRecord : Type := mkRecord {
  ref : string;
  source : string;
  result : Result
}.

(** A recorder's scope: the dict of [_get_records()], in insertion order.
    A dict holds a key once; no statement below depends on it. *)
Definition Dict : Type := list (string * ScopeRecord).

(** The SDK stores every record under its own reference name. *)
Definition keyed_by_ref (d : Dict) : Prop :=
  Forall (fun kr => ref (snd kr) = fst kr) d.

Definition dict_keys (d : Dict) : list string := map fst d.

(** [d[k]]. *)
Fixpoint dict_get (k : string) (d : Dict) : Res ScopeRecord :=
  match d with
  | [] => Err KeyError
  | (k', r) :: d' => if (k =? k')%string then Ok r else dict_get k d'
  end.

(** What [get_new_records] hands on: a tuple of records, or one record
    that is not wrapped in a tuple. *)
Inductive PyRecords : Type :=
| RTuple (l : list ScopeRecord)
| RBare (r : ScopeRecord).

(** [for record in records]: a tuple yields its records; a scope record
    is a plain object and iterating it raises. *)
Definition py_iter (v : PyRecords) : Res (list ScopeRecord) :=
  match v with
  | RTuple l => Ok l
  | RBare _ => Err TypeError
  end.

(** The records a value holds, whatever its shape. *)
Definition records_of (v : PyRecords) : list ScopeRecord :=
  match v with
  | RTuple l => l
  | RBare r => [r]
  end.

Fixpoint res_map {A B : Type} (f : A -> Res B) (l : list A) : Res (list B) :=
  match l with
  | [] => Ok []
  | a :: l' =>
      res_bind (f a) (fun b =>
      res_bind (res_map f l') (fun bs => Ok (b :: bs)))
  end.

(** [operator.itemgetter] applied to the keys [ks] and then to [d]: one
    key gives the item itself, several keys give a tuple of items. *)
Definition itemgetter (ks : list string) (d : Dict) : Res PyRecords :=
  match ks with
  | [] => Err TypeError
  | [k] => res_bind (dict_get k d) (fun r => Ok (RBare r))
  | _ => res_bind (res_map (fun k => dict_get k d) ks)
           (fun rs => Ok (RTuple rs))
  end.

(** ** Recorders *)

Inductive Strategy : Type :=
| DiagnosticUsage | CLIUsage | ArtifactAPIUsage | ExecutionUsage.

(** A recorder object: its scope and what [render()] returns. *)
Record UseState : Type := mkUse {
  _get_records : Dict;
  rendering : PyObj
}.

(** The four recorder instances held by the members of [MetaUsage]. *)
Record Uses : Type := mkUses {
  diagnostic_value : UseState;
  cli_value : UseState;
  artifact_api_value : UseState;
  execution_value : UseState
}.

Definition use_of (s : Strategy) (u : Uses) : UseState :=
  match s with
  | DiagnosticUsage => diagnostic_value u
  | CLIUsage => cli_value u
  | ArtifactAPIUsage => artifact_api_value u
  | ExecutionUsage => execution_value u
  end.

Definition set_use (s : Strategy) (v : UseState) (u : Uses) : Uses :=
  match s with
  | DiagnosticUsage =>
      mkUses v (cli_value u) (artifact_api_value u) (execution_value u)
  | CLIUsage =>
      mkUses (diagnostic_value u) v (artifact_api_value u) (execution_value u)
  | ArtifactAPIUsage =>
      mkUses (diagnostic_value u) (cli_value u) v (execution_value u)
  | ExecutionUsage =>
      mkUses (diagnostic_value u) (cli_value u) (artifact_api_value u) v
  end.

(** Modelled from the spec: [meta_usage.py] is not among the sources; the
    spec gives the members of the enumeration [MetaUsage] and their order
    as diagnostic, command-line, artifact-API, execution. *)
Definition MetaUsage : list Strategy :=
  [DiagnosticUsage; CLIUsage; ArtifactAPIUsage; ExecutionUsage].

(** ** Documentation nodes *)

(** The node classes of [q2doc.usage.nodes], with the attributes this
    module reads or passes to their constructors.  [source] is the docutils
    attribute naming the file a node was parsed from; nodes built by this
    module have none. *)
Inductive Node : Type :=
| UsageNode (src : option string) (factory : bool) (name : string)
| UsageExampleNode (titles : list string) (examples : list PyObj)
| UsageDataNode (stype load_statement name : string)
| UsageMetadataNode (load_statement preview name : string)
| FactoryNode (relative_url absolute_url saveas ref : string)
              (preview : option string).

(** [node.source]. *)
Definition node_source (n : Node) : option string :=
  match n with
  | UsageNode s _ _ => s
  | _ => None
  end.

(** [node.factory]. *)
Definition node_factory (n : Node) : Res bool :=
  match n with
  | UsageNode _ f _ => Ok f
  | _ => Err AttributeError
  end.

(** [node.name]. *)
Definition node_name (n : Node) : Res string :=
  match n with
  | UsageNode _ _ nm => Ok nm
  | UsageDataNode _ _ nm => Ok nm
  | UsageMetadataNode _ _ nm => Ok nm
  | _ => Err AttributeError
  end.

Definition is_usage_node (n : Node) : bool :=
  match n with UsageNode _ _ _ => true | _ => false end.

Definition is_factory_node (n : Node) : bool :=
  match n with FactoryNode _ _ _ _ _ => true | _ => false end.

(** The parsed module of a code block, standing for the text it was parsed
    from. *)
Inductive AST : Type := Module (text : string).

(** A code block of [env.usage_blocks]. *)
Record Block : Type := mkBlock {
  code : string;
  tree : option AST;
  nodes : list Node
}.

Definition set_tree (b : Block) (t : AST) : Block :=
  mkBlock (code b) (Some t) (nodes b).

Definition set_nodes (b : Block) (ns : list Node) : Block :=
  mkBlock (code b) (tree b) ns.

(** What the module reads of the build environment. *)
Record Env : Type := mkEnv {
  srcdir : string;
  base_url : string;
  outdir : string
}.

(** [l[0]]. *)
Definition first {A : Type} (l : list A) : Res A :=
  match l with
  | a :: _ => Ok a
  | [] => Err IndexError
  end.

(** [l.pop()]: the last element and the list without it. *)
Definition pop {A : Type} (l : list A) : Res (A * list A) :=
  match l with
  | [] => Err IndexError
  | a :: l' => Ok (last l' a, removelast l)
  end.

(** ** The state the module runs in *)

(** Log of the calls made during a run, in order. *)
Inductive Event : Type :=
| EvParse (i : nat)
| EvExec (s : Strategy) (i : nat)
| EvDispatch (s : Strategy) (i : nat) (records : PyRecords)
             (processed : list string)
| EvRender (s : Strategy)
| EvUpdateNodes.

(** The state a run acts on: the working directory, the four recorders,
    the directories known to exist, the [save] calls made so far with
    the path and the result of each, oldest first, and the call log. *)
Record World : Type := mkWorld {
  cwd : string;
  uses : Uses;
  dirs : list string;
  files : list (string * Result);
  calls : list Event
}.

(** State and exception monad: an exception aborts the build. *)
Definition M (A : Type) : Type := World -> Res (A * World).

Definition ret {A : Type} (a : A) : M A := fun w => Ok (a, w).

Definition bind {A B : Type} (m : M A) (k : A -> M B) : M B :=
  fun w => match m w with
           | Ok (a, w') => k a w'
           | Err e => Err e
           end.

Definition lift {A : Type} (r : Res A) : M A :=
  fun w => match r with
           | Ok a => Ok (a, w)
           | Err e => Err e
           end.

Declare Scope monad_scope.
Delimit Scope monad_scope with monad.
Notation "x <- m ;; k" := (bind m (fun x => k))
  (at level 61, m at next level, right associativity) : monad_scope.
Notation "' p <- m ;; k" := (bind m (fun x => match x with p => k end))
  (at level 61, p pattern, m at next level, right associativity)
  : monad_scope.
Notation "m ;; k" := (bind m (fun _ => k))
  (at level 61, right associativity) : monad_scope.
Local Open Scope monad_scope.

Definition log (e : Event) : M unit :=
  fun w => Ok (tt, mkWorld (cwd w) (uses w) (dirs w) (files w)
                           (calls w ++ [e])).

(** [os.chdir(d)]. *)
Definition chdir (d : string) : M unit :=
  fun w => Ok (tt, mkWorld d (uses w) (dirs w) (files w) (calls w)).

(** [if not out_dir.exists(): out_dir.mkdir(parents=True)]: the directory
    is noted as existing; its parents are not listed. *)
Definition ensure_dir (d : string) : M unit :=
  fun w => if py_in d (dirs w) then Ok (tt, w)
           else Ok (tt, mkWorld (cwd w) (uses w) (dirs w ++ [d]) (files w)
                                (calls w)).

(** [artifact.save(path)]: the call is noted with its path and with what
    is saved; nothing is said of what the disk holds afterwards. *)
Definition save (artifact : Result) (path : string) : M unit :=
  fun w => Ok (tt, mkWorld (cwd w) (uses w) (dirs w)
                           (files w ++ [(path, artifact)]) (calls w)).

(** [use.render()]. *)
Definition render (use : Strategy) : M PyObj :=
  log (EvRender use) ;;
  fun w => Ok (rendering (use_of use (uses w)), w).

(** [use._get_record(ref)]. *)
Definition _get_record (use : Strategy) (r : string) : M ScopeRecord :=
  fun w => match dict_get r (_get_records (use_of use (uses w))) with
           | Ok rec => Ok (rec, w)
           | Err e => Err e
           end.

(** ** The functions of the module *)

Definition new_record_keys (records : Dict) (processed_records : list string)
  : list string :=
  filter (fun k => negb (py_in k processed_records)) (dict_keys records).

Definition get_new_records (use : UseState) (processed_records : list string)
  : Res PyRecords :=
  let records := _get_records use in
  match new_record_keys records processed_records with
  | [] => Ok (RTuple [])
  | ks => itemgetter ks records
  end.

Definition update_processed_records (new_records : PyRecords)
  (processed_records : list string) : Res (list string) :=
  res_bind (py_iter new_records) (fun rs =>
  Ok (processed_records ++ map ref rs)).

Definition get_docname (node : Node)
  : Res (Pathlib.PurePath * Pathlib.PurePath) :=
  match node_source node with
  | None => Err TypeError
  | Some s =>
      match map Pathlib.Path (Pathlib.last_two (Pathlib.parts (Pathlib.Path s)))
      with
      | [root; doc_name] => Ok (root, Pathlib.Path (Pathlib.stem doc_name))
      | _ => Err ValueError
      end
  end.

Definition factories_to_nodes (block : Block) (env : Env) : Res Block :=
  res_bind (pop (nodes block)) (fun popped =>
  let (node, rest) := popped in
  res_bind (get_docname node) (fun rd =>
  let doc_name := snd rd in
  let base := PyStr.rstrip "/" (base_url env) in
  res_bind (node_name node) (fun node_name =>
  let name := node_name +++ ".qza" in
  let relative_url := "results/" +++ name in
  let absolute_url :=
    base +++ "/" +++ Pathlib.str doc_name +++ "/" +++ relative_url in
  let factory_node :=
    FactoryNode relative_url absolute_url name node_name None in
  Ok (set_nodes block (rest ++ [factory_node]))))).

(** The test [record.source == "init_metadata" or "init_data"]: the
    comparison binds tighter than [or]. *)
Definition save_test (record : ScopeRecord) : PyObj :=
  py_or (PyBool (source record =? "init_metadata")%string)
        (PyString "init_data").

(** The loop of [execution]. *)
Fixpoint execution_records (out_dir : Pathlib.PurePath)
  (records : list ScopeRecord) : M unit :=
  match records with
  | [] => ret tt
  | record :: rest =>
      let artifact := result record in
      let path :=
        Pathlib.os_path_join (Pathlib.str out_dir) (ref record +++ ".qza") in
      (if truthy (save_test record) then save artifact path else ret tt) ;;
      execution_records out_dir rest
  end.

(** The output directory of a document. *)
Definition results_dir (env : Env) (doc_name : Pathlib.PurePath)
  : Pathlib.PurePath :=
  Pathlib.div (Pathlib.div (Pathlib.Path (outdir env)) doc_name)
              (Pathlib.Path "results").

Definition execution (records : PyRecords) (block : Block) (env : Env)
  : M Block :=
  node <- lift (first (nodes block)) ;;
  rd <- lift (get_docname node) ;;
  let out_dir := results_dir env (snd rd) in
  ensure_dir (Pathlib.str out_dir) ;;
  node0 <- lift (first (nodes block)) ;;
  is_factory <- lift (node_factory node0) ;;
  block' <- (if is_factory : bool then lift (factories_to_nodes block env)
             else ret block) ;;
  rs <- lift (py_iter records) ;;
  execution_records out_dir rs ;;
  ret block'.

(** The loop of [cli]; it ends at the first record made by an action. *)
Fixpoint cli_records (use : Strategy) (records : list ScopeRecord)
  (block : Block) : M Block :=
  match records with
  | [] => ret block
  | record :: rest =>
      if (source record =? "action")%string then
        rendered <- render use ;;
        example <- lift (join_empty rendered) ;;
        let node := UsageExampleNode ["Command Line"] [PyString example] in
        ret (set_nodes block [node])
      else cli_records use rest block
  end.

Definition cli (use : Strategy) (records : PyRecords) (block : Block)
  : M Block :=
  rs <- lift (py_iter records) ;;
  cli_records use rs block.

Definition init_data_node (record : ScopeRecord) : M Node :=
  let name := ref record in
  let fname := name +++ ".qza" in
  rec <- _get_record ExecutionUsage name ;;
  stype <- lift (result_type (result rec)) ;;
  let load_statement :=
    name +++ " = qiime2.Artifact.load('" +++ fname +++ "')" in
  ret (UsageDataNode stype load_statement name).

Definition init_metadata_node (record : ScopeRecord) : M Node :=
  let name := ref record in
  let fname := name +++ ".qza" in
  rec <- _get_record ExecutionUsage name ;;
  let load_statement :=
    name +++ " = qiime2.Metadata.load('" +++ fname +++ "')" in
  metadata_preview <- lift (to_dataframe_str (result rec)) ;;
  ret (UsageMetadataNode load_statement metadata_preview name).

(** [node.titles.append(title); node.examples.append(example)]. *)
Definition append_example (title : string) (example : PyObj) (node : Node)
  : Res Node :=
  match node with
  | UsageExampleNode titles examples =>
      Ok (UsageExampleNode (titles ++ [title]) (examples ++ [example]))
  | _ => Err AttributeError
  end.

(** The loop of [artifact_api]; it ends at the first record made by an
    action. *)
Fixpoint artifact_api_records (use : Strategy) (records : list ScopeRecord)
  (block : Block) : M Block :=
  match records with
  | [] => ret block
  | record :: rest =>
      let source := source record in
      if (source =? "init_data")%string then
        data_node <- init_data_node record ;;
        artifact_api_records use rest
          (set_nodes block (nodes block ++ [data_node]))
      else if (source =? "init_metadata")%string then
        metadata_node <- init_metadata_node record ;;
        artifact_api_records use rest
          (set_nodes block (nodes block ++ [metadata_node]))
      else if (source =? "action")%string then
        node <- lift (first (nodes block)) ;;
        example <- render use ;;
        node' <- lift (append_example "Artifact API" example node) ;;
        ret (set_nodes block (node' :: tl (nodes block)))
      else artifact_api_records use rest block
  end.

Definition artifact_api (use : Strategy) (records : PyRecords)
  (block : Block) : M Block :=
  rs <- lift (py_iter records) ;;
  artifact_api_records use rs block.

(** ** The document tree *)

(** A docutils tree, as far as this module looks into it: the nodes of
    [q2doc.usage.nodes] are leaves, every other element has a tag and
    children.  The document is the forest below its root. *)
Inductive DocTree : Type :=
| Leaf (n : Node)
| Element (tag : string) (children : Forest)
with Forest : Type :=
| FNil
| FCons (t : DocTree) (f : Forest).

Fixpoint leaves_of (ns : list Node) : Forest :=
  match ns with
  | [] => FNil
  | n :: ns' => FCons (Leaf n) (leaves_of ns')
  end.

Fixpoint fapp (f g : Forest) : Forest :=
  match f with
  | FNil => g
  | FCons t f' => FCons t (fapp f' g)
  end.

(** The usage nodes of a document in document order: what
    [doctree.traverse(cls)] visits, for any of the module's classes. *)
Fixpoint all_nodes (f : Forest) : list Node :=
  match f with
  | FNil => []
  | FCons (Leaf n) rest => n :: all_nodes rest
  | FCons (Element _ kids) rest => all_nodes kids ++ all_nodes rest
  end.

Definition traverse (cls : Node -> bool) (doctree : Forest) : list Node :=
  filter cls (all_nodes doctree).

(** First loop of [update_nodes].  The traversal is taken before the loop
    and [replace_self] finds a node by identity, so the k-th placeholder of
    the document receives the nodes of the k-th block; [zip] stops at the
    shorter of the two sequences.  The blocks not yet paired are threaded
    through the document. *)
Fixpoint replace_placeholders (pending : list (list Node)) (f : Forest)
  : Forest * list (list Node) :=
  match f with
  | FNil => (FNil, pending)
  | FCons (Leaf n) rest =>
      if is_usage_node n then
        match pending with
        | new :: pending' =>
            let (rest', p) := replace_placeholders pending' rest in
            (fapp (leaves_of new) rest', p)
        | [] =>
            let (rest', p) := replace_placeholders [] rest in
            (FCons (Leaf n) rest', p)
        end
      else
        let (rest', p) := replace_placeholders pending rest in
        (FCons (Leaf n) rest', p)
  | FCons (Element tag kids) rest =>
      let (kids', p) := replace_placeholders pending kids in
      let (rest', p') := replace_placeholders p rest in
      (FCons (Element tag kids') rest', p')
  end.

(** Body of the second loop of [update_nodes] for one factory node. *)
Definition preview_node (execution_records : Dict) (node : Node)
  : Res Node :=
  match node with
  | FactoryNode relative_url absolute_url saveas r preview =>
      res_bind (dict_get r execution_records) (fun rec =>
      let result := result rec in
      if is_metadata result then
        res_bind (to_dataframe_str result) (fun metadata_preview =>
        Ok (FactoryNode relative_url absolute_url saveas r
                        (Some metadata_preview)))
      else Ok node)
  | _ => Err AttributeError
  end.

(** Second loop of [update_nodes]: the factory nodes of the document are
    paired with the blocks, so [pairs] of them are left to visit. *)
Fixpoint attach_previews (execution_records : Dict) (pairs : nat)
  (f : Forest) : Res (Forest * nat) :=
  match f with
  | FNil => Ok (FNil, pairs)
  | FCons (Leaf n) rest =>
      match is_factory_node n, pairs with
      | true, S pairs' =>
          res_bind (preview_node execution_records n) (fun n' =>
          res_bind (attach_previews execution_records pairs' rest) (fun r =>
          Ok (FCons (Leaf n') (fst r), snd r)))
      | _, _ =>
          res_bind (attach_previews execution_records pairs rest) (fun r =>
          Ok (FCons (Leaf n) (fst r), snd r))
      end
  | FCons (Element tag kids) rest =>
      res_bind (attach_previews execution_records pairs kids) (fun k =>
      res_bind (attach_previews execution_records (snd k) rest) (fun r =>
      Ok (FCons (Element tag (fst k)) (fst r), snd r)))
  end.

Definition update_nodes (doctree : Forest) (usage_blocks : list Block)
  : M Forest :=
  let doctree' := fst (replace_placeholders (map nodes usage_blocks) doctree) in
  fun w =>
    let execution_records := _get_records (execution_value (uses w)) in
    match attach_previews execution_records (List.length usage_blocks) doctree'
    with
    | Ok r => Ok (fst r, w)
    | Err e => Err e
    end.

(** ** Running the blocks *)

Section Interpreter.

(** [ast.parse]: a syntax error aborts the build. *)
Variable ast_parse : string -> Res AST.

(** [exec] of a compiled block with [use] bound to a recorder: the block
    acts on that recorder only, or raises.  What the code of a block may
    do to the working directory or to files is not modelled. *)
Variable py_exec : AST -> Strategy -> UseState -> Res UseState.

(** [BlockValidator().visit]. *)
Variable visit : AST -> Res unit.

Definition exec (source : AST) (use : Strategy) : M unit :=
  fun w => match py_exec source use (use_of use (uses w)) with
           | Ok u => Ok (tt, mkWorld (cwd w) (set_use use u (uses w))
                                     (dirs w) (files w) (calls w))
           | Err e => Err e
           end.

Definition diagnostic (block : Block) : M Block :=
  match tree block with
  | Some t => lift (visit t) ;; ret block
  | None => lift (Err KeyError)
  end.

(** Single dispatch on the class of [use]. *)
Definition records_to_nodes (use : Strategy) (records : PyRecords)
  (block : Block) (env : Env) : M Block :=
  match use with
  | DiagnosticUsage => diagnostic block
  | ExecutionUsage => execution records block env
  | CLIUsage => cli use records block
  | ArtifactAPIUsage => artifact_api use records block
  end.

(** Body of the inner loop of [process_usage_blocks], for the block at
    index [i]. *)
Definition process_block (use : Strategy) (env : Env)
  (processed_records : list string) (i : nat) (block : Block)
  : M (Block * list string) :=
  tree <- lift (ast_parse (code block)) ;;
  log (EvParse i) ;;
  let block := set_tree block tree in
  exec tree use ;;
  log (EvExec use i) ;;
  new_records <-
    (fun w => match get_new_records (use_of use (uses w)) processed_records
              with Ok v => Ok (v, w) | Err e => Err e end) ;;
  log (EvDispatch use i new_records processed_records) ;;
  block' <- records_to_nodes use new_records block env ;;
  processed_records' <-
    lift (update_processed_records new_records processed_records) ;;
  ret (block', processed_records').

(** [for block in env.usage_blocks], from index [i] on. *)
Fixpoint for_blocks (use : Strategy) (env : Env)
  (processed_records : list string) (i : nat) (blocks : list Block)
  : M (list Block) :=
  match blocks with
  | [] => ret []
  | block :: rest =>
      bp <- process_block use env processed_records i block ;;
      rest' <- for_blocks use env (snd bp) (S i) rest ;;
      ret (fst bp :: rest')
  end.

(** [for use in MetaUsage], over the members [members]. *)
Fixpoint for_uses (members : list Strategy) (env : Env)
  (blocks : list Block) : M (list Block) :=
  match members with
  | [] => ret blocks
  | use :: rest =>
      let processed_records := [] in
      blocks' <- for_blocks use env processed_records 0 blocks ;;
      for_uses rest env blocks'
  end.

Definition process_usage_blocks (env : Env) (doctree : Forest)
  (usage_blocks : list Block) : M (list Block * Forest) :=
  chdir (srcdir env) ;;
  blocks <- for_uses MetaUsage env usage_blocks ;;
  log EvUpdateNodes ;;
  doctree' <- update_nodes doctree blocks ;;
  ret (blocks, doctree').

End Interpreter.

(** ** Vocabulary of the statements *)

(** The file a record is saved to by [execution], and what is saved. *)
Definition saved_as (out_dir : Pathlib.PurePath) (record : ScopeRecord)
  : string * Result :=
  (Pathlib.os_path_join (Pathlib.str out_dir) (ref record +++ ".qza"),
   result record).

Definition with_files (w : World) (fs : list (string * Result)) : World :=
  mkWorld (cwd w) (uses w) (dirs w) fs (calls w).

Definition with_calls (w : World) (evs : list Event) : World :=
  mkWorld (cwd w) (uses w) (dirs w) (files w) evs.

Definition is_action (record : ScopeRecord) : bool :=
  (source record =? "action")%string.

(** What a record that comes before the first action adds to a block under
    the artifact API recorder, given the records of the execution recorder:
    a data node, a metadata node, or nothing. *)
Inductive appended (execution_records : Dict)
  : ScopeRecord -> list Node -> Prop :=
| appended_data (record rec : ScopeRecord) (t : string) :
    source record = "init_data" ->
    dict_get (ref record) execution_records = Ok rec ->
    result rec = Artifact t ->
    appended execution_records record
      [UsageDataNode t
         (ref record +++ " = qiime2.Artifact.load('" +++ (ref record
          +++ ".qza") +++ "')")
         (ref record)]
| appended_metadata (record rec : ScopeRecord) (df : string) :
    source record = "init_metadata" ->
    dict_get (ref record) execution_records = Ok rec ->
    result rec = Metadata df ->
    appended execution_records record
      [UsageMetadataNode
         (ref record +++ " = qiime2.Metadata.load('" +++ (ref record
          +++ ".qza") +++ "')")
         df (ref record)]
| appended_nothing (record : ScopeRecord) :
    source record <> "init_data" ->
    source record <> "init_metadata" ->
    source record <> "action" ->
    appended execution_records record [].

(** The factory node made for a placeholder called [name] in the document
    [doc_name]. *)
Definition factory_node_for (env : Env) (doc_name : Pathlib.PurePath)
  (name : string) : Node :=
  FactoryNode ("results/" +++ name +++ ".qza")
              (PyStr.rstrip "/" (base_url env) +++ "/"
               +++ Pathlib.str doc_name +++ "/"
               +++ "results/" +++ name +++ ".qza")
              (name +++ ".qza") name None.

(** ** Handlers and recorders *)

Definition is_render (e : Event) : bool :=
  match e with EvRender _ => true | _ => false end.

(** Every scope is keyed by reference name. *)
Definition all_keyed (u : Uses) : Prop :=
  forall use, keyed_by_ref (_get_records (use_of use u)).

(** A handler leaves the recorders alone and logs render calls only. *)
Definition only_renders (w w' : World) : Prop :=
  exists evs, calls w' = calls w ++ evs
              /\ forallb is_render evs = true
              /\ uses w' = uses w.

(** The recorder methods a block calls keep a scope keyed by reference
    name. *)
Definition exec_keeps_keys
  (py_exec : AST -> Strategy -> UseState -> Res UseState) : Prop :=
  forall (t : AST) (s : Strategy) (u u' : UseState),
    keyed_by_ref (_get_records u) -> py_exec t s u = Ok u' ->
    keyed_by_ref (_get_records u').

(** ** The node update on the list of nodes of a document *)

(** The first loop of the update, told on the nodes of the document in
    document order: each placeholder takes the nodes of the next block as
    long as blocks are left. *)
Fixpoint replaced (pending : list (list Node)) (ns : list Node)
  : list Node * list (list Node) :=
  match ns with
  | [] => ([], pending)
  | n :: ns' =>
      if is_usage_node n then
        match pending with
        | new :: pending' =>
            let (r, p) := replaced pending' ns' in (new ++ r, p)
        | [] => let (r, p) := replaced [] ns' in (n :: r, p)
        end
      else let (r, p) := replaced pending ns' in (n :: r, p)
  end.

(** The second loop of the update on a list of nodes. *)
Fixpoint attach_list (execution_records : Dict) (pairs : nat)
  (ns : list Node) : Res (list Node * nat) :=
  match ns with
  | [] => Ok ([], pairs)
  | n :: ns' =>
      match is_factory_node n, pairs with
      | true, S pairs' =>
          res_bind (preview_node execution_records n) (fun n' =>
          res_bind (attach_list execution_records pairs' ns') (fun r =>
          Ok (n' :: fst r, snd r)))
      | _, _ =>
          res_bind (attach_list execution_records pairs ns') (fun r =>
          Ok (n :: fst r, snd r))
      end
  end.

Definition is_other_node (n : Node) : bool := negb (is_factory_node n).

(** The state in which [update_nodes] is called at the end of a run. *)
Definition at_update (w : World) : World :=
  with_calls w (calls w ++ [EvUpdateNodes]).

(** ** A small document used to run the module *)

Module Sample.

Definition env : Env :=
  mkEnv "/srv/docs" "https://docs.example.org/" "/srv/build".

Definition table : ScopeRecord :=
  mkRecord "table" "init_data" (Artifact "FeatureTable[Frequency]").

Definition md : ScopeRecord :=
  mkRecord "md" "init_metadata" (Metadata "id  ph").

Definition rarefied : ScopeRecord :=
  mkRecord "rarefied" "action" (Artifact "FeatureTable[Frequency]").

Definition merged : ScopeRecord :=
  mkRecord "merged" "merge_metadata" (Metadata "id  ph  depth").

Definition column : ScopeRecord :=
  mkRecord "column" "get_metadata_column" (Metadata "id  depth").

(** [d[k] = r]: an existing key keeps its place. *)
Fixpoint dict_set (k : string) (r : ScopeRecord) (d : Dict) : Dict :=
  match d with
  | [] => [(k, r)]
  | (k', r') :: d' =>
      if (k =? k')%string then (k, r) :: d' else (k', r') :: dict_set k r d'
  end.

(** A recorder method that stores a record under its reference name. *)
Definition push (r : ScopeRecord) (u : UseState) : UseState :=
  mkUse (dict_set (ref r) r (_get_records u)) (rendering u).

Definition ast_parse (text : string) : Res AST :=
  if (text =? "def")%string then Err SyntaxError else Ok (Module text).

(** Three block bodies: one loads a table and its metadata, one merges
    metadata, one does nothing; any other text raises. *)
Definition py_exec (t : AST) (s : Strategy) (u : UseState) : Res UseState :=
  match t with
  | Module text =>
      if (text =? "load")%string then Ok (push md (push table u))
      else if (text =? "merge")%string then Ok (push column (push merged u))
      else if (text =? "pass")%string then Ok u
      else Err ExecError
  end.

Definition visit (t : AST) : Res unit := Ok tt.

Definition fresh : UseState := mkUse [] (PyLines ["qiime "; "tools"]).

Definition world : World :=
  mkWorld "/" (mkUses fresh fresh fresh fresh) [] [] [].

(** The state after the execution recorder has run the loading block. *)
Definition loaded_world : World :=
  mkWorld "/srv/docs" (mkUses fresh fresh fresh (push md (push table fresh)))
          [] [] [].

Definition placeholder (nm : string) (fac : bool) : Node :=
  UsageNode (Some "/srv/docs/tutorial.rst") fac nm.

Definition block (text nm : string) (fac : bool) : Block :=
  mkBlock text None [placeholder nm fac].

Definition doctree : Forest :=
  FCons (Element "section"
           (FCons (Leaf (placeholder "first" false))
              (FCons (Element "paragraph" FNil)
                 (FCons (Leaf (placeholder "second" false)) FNil))))
        FNil.

End Sample.

(** A run of the sample document: two blocks that merge the same
    metadata. *)
Module SampleRun.

Definition blocks : list Block :=
  [Sample.block "merge" "first" false; Sample.block "merge" "second" false].

Definition passes : Res (list Block * World) :=
  Eval vm_compute in
    for_uses Sample.ast_parse Sample.py_exec Sample.visit MetaUsage
             Sample.env blocks Sample.world.

Definition after_passes : list Block * World :=
  match passes with
  | Ok x => x
  | Err _ => ([], Sample.world)
  end.

Definition run : Res ((list Block * Forest) * World) :=
  Eval vm_compute in
    process_usage_blocks Sample.ast_parse Sample.py_exec Sample.visit
                         Sample.env Sample.doctree blocks Sample.world.

Definition after_run : (list Block * Forest) * World :=
  match run with
  | Ok x => x
  | Err _ => (([], FNil), Sample.world)
  end.

(** The state before the pass of the execution recorder. *)
Definition before_execution : list Block * World :=
  Eval vm_compute in
    match for_uses Sample.ast_parse Sample.py_exec Sample.visit
                   [DiagnosticUsage; CLIUsage; ArtifactAPIUsage]
                   Sample.env blocks Sample.world with
    | Ok x => x
    | Err _ => ([], Sample.world)
    end.

End SampleRun.

(** The state in which a handler is called for block [i], after the block
    has been parsed and run under the recorder [use]. *)
Definition at_dispatch (use : Strategy) (i : nat) (u : UseState)
  (v : PyRecords) (processed_records : list string) (w : World) : World :=
  mkWorld (cwd w) (set_use use u (uses w)) (dirs w) (files w)
          (calls w ++ [EvParse i; EvExec use i;
                       EvDispatch use i v processed_records]).

(** ** The handler calls of a run *)

(** One call of the record dispatcher: the index of the block, the tree its
    code was parsed to, the records handed to the handler and the processed
    names at the time of the call. *)
Record Call : Type := mkCall {
  call_block : nat;
  call_tree : AST;
  call_records : PyRecords;
  call_processed : list string
}.

Section Calls.

Variable ast_parse : string -> Res AST.
Variable py_exec : AST -> Strategy -> UseState -> Res UseState.
Variable visit : AST -> Res unit.

(** A completed pass of the recorder [use] over the blocks from index [i]
    on, with the names [p] already processed, told call by call: each block
    is parsed, its tree is run on the state of the recorder, the new
    records of the resulting state are handed to the handler with the block,
    and their names join the processed names for the blocks that follow. *)
Inductive pass_calls (use : Strategy) (env : Env)
  : list string -> nat -> list Block -> World
    -> list Block -> World -> list Call -> Prop :=
| pass_done (p : list string) (i : nat) (w : World) :
    pass_calls use env p i [] w [] w []
| pass_block (p p1 : list string) (i : nat) (block b1 : Block)
    (rest rest' : list Block) (w w1 w' : World)
    (t : AST) (u : UseState) (v : PyRecords) (cs : list Call) :
    ast_parse (code block) = Ok t ->
    py_exec t use (use_of use (uses w)) = Ok u ->
    get_new_records u p = Ok v ->
    records_to_nodes visit use v (set_tree block t) env
      (at_dispatch use i u v p w) = Ok (b1, w1) ->
    update_processed_records v p = Ok p1 ->
    pass_calls use env p1 (S i) rest w1 rest' w' cs ->
    pass_calls use env p i (block :: rest) w (b1 :: rest') w'
               (mkCall i t v p :: cs).

(** A completed run over the recorders [members]: one pass for each, in
    order, each from the first block and with no name processed, on the
    blocks as the pass before left them. *)
Inductive run_calls (env : Env)
  : list Strategy -> list Block -> World
    -> list Block -> World -> list (list Call) -> Prop :=
| run_done (blocks : list Block) (w : World) :
    run_calls env [] blocks w blocks w []
| run_pass (use : Strategy) (rest : list Strategy)
    (blocks bs1 bs' : list Block) (w w1 w' : World)
    (cs : list Call) (passes : list (list Call)) :
    pass_calls use env [] 0 blocks w bs1 w1 cs ->
    run_calls env rest bs1 w1 bs' w' passes ->
    run_calls env (use :: rest) blocks w bs' w' (cs :: passes).

(** The code of the blocks, parsed and run once each, in order, on the
    state [u] of the recorder [use]. *)
Fixpoint run_blocks (use : Strategy) (blocks : list Block) (u : UseState)
  : Res UseState :=
  match blocks with
  | [] => Ok u
  | block :: rest =>
      res_bind (ast_parse (code block)) (fun t =>
      res_bind (py_exec t use u) (fun u' => run_blocks use rest u'))
  end.

End Calls.

(** The calls of a pass that started with the names [processed]: each call
    carries exactly the names processed so far, receives no record with
    such a name, and hands the names of its records on to the next. *)
Fixpoint skips_processed (processed : list string) (cs : list Call) : Prop :=
  match cs with
  | [] => True
  | c :: cs' =>
      call_processed c = processed
      /\ (forall r, In r (records_of (call_records c)) ->
                    ~ In (ref r) processed)
      /\ skips_processed (processed ++ map ref (records_of (call_records c)))
                         cs'
  end.

(** No two calls receive a record of the same name. *)
Definition no_name_twice (cs : list Call) : Prop :=
  forall cs1 c1 cs2 c2 cs3 r1 r2,
    cs = cs1 ++ c1 :: cs2 ++ c2 :: cs3 ->
    In r1 (records_of (call_records c1)) ->
    In r2 (records_of (call_records c2)) ->
    ref r2 <> ref r1.

(** The number of factory nodes a block holds. *)
Definition factory_count (b : Block) : nat :=
  List.length (filter is_factory_node (nodes b)).

(** What the second loop of the update makes of the factory node [n], given
    the records of the execution recorder: the node with the dataframe of
    its record as preview when the record is a metadata value, the node as
    it is when the record is an artifact. *)
Definition previewed_from (execution_records : Dict) (n n' : Node) : Prop :=
  exists relative_url absolute_url saveas r preview rec,
    n = FactoryNode relative_url absolute_url saveas r preview
    /\ dict_get r execution_records = Ok rec
    /\ n' = match result rec with
            | Metadata df =>
                FactoryNode relative_url absolute_url saveas r (Some df)
            | Artifact _ => n
            end.

(** A run of a document whose first block is a factory for the merged
    metadata. *)
Module SampleFactory.

Definition doctree : Forest :=
  FCons (Element "section"
           (FCons (Leaf (Sample.placeholder "merged" true))
              (FCons (Element "paragraph" FNil)
                 (FCons (Leaf (Sample.placeholder "second" false)) FNil))))
        FNil.

Definition blocks : list Block :=
  [Sample.block "merge" "merged" true; Sample.block "pass" "second" false].

Definition run : Res ((list Block * Forest) * World) :=
  Eval vm_compute in
    process_usage_blocks Sample.ast_parse Sample.py_exec Sample.visit
                         Sample.env doctree blocks Sample.world.

Definition after_run : (list Block * Forest) * World :=
  match run with
  | Ok x => x
  | Err _ => (([], FNil), Sample.world)
  end.

End SampleFactory.

(** * Properties *)

(** ** Strings and paths on concrete inputs *)

Example split_keeps_empty_pieces :
  PyStr.split "/" "a//b" = ["a"; EmptyString; "b"].
Proof. reflexivity. Qed.

Example rstrip_base_url :
  PyStr.rstrip "/" "https://docs.example.org//" = "https://docs.example.org".
Proof. reflexivity. Qed.

Example path_parts_absolute :
  Pathlib.parts (Pathlib.Path "/srv/docs/./tutorial.rst")
  = ["/"; "srv"; "docs"; "tutorial.rst"].
Proof. reflexivity. Qed.

Example path_stem_last_suffix :
  Pathlib.stem (Pathlib.Path "archive.tar.gz") = "archive.tar".
Proof. reflexivity. Qed.

Example get_docname_of_source_file :
  get_docname (UsageNode (Some "/srv/docs/tutorial.rst") false "tutorial")
  = Ok (Pathlib.Path "docs", Pathlib.Path "tutorial").
Proof. reflexivity. Qed.

Example get_docname_needs_two_parts :
  get_docname (UsageNode (Some "tutorial.rst") false "tutorial")
  = Err ValueError.
Proof. reflexivity. Qed.

Example results_dir_of_document :
  Pathlib.str (results_dir (mkEnv "/srv/docs" "/" "/srv/build")
                           (Pathlib.Path "tutorial"))
  = "/srv/build/tutorial/results".
Proof. reflexivity. Qed.

(** ** New records *)

Lemma dict_get_of_key (k : string) (d : Dict) :
  In k (dict_keys d) -> exists r, dict_get k d = Ok r /\ In (k, r) d.
Proof.
  induction d as [|[k' r'] d IH]; simpl; intros H.
  - contradiction.
  - destruct (String.eqb_spec k k') as [->|Hne].
    + exists r'. split; [reflexivity | now left].
    + destruct H as [H|H]; [congruence|].
      destruct (IH H) as [r [Hr Hin]]. exists r. split; [exact Hr | now right].
Qed.

Lemma dict_get_In (k : string) (d : Dict) (r : ScopeRecord) :
  dict_get k d = Ok r -> In (k, r) d.
Proof.
  induction d as [|[k' r'] d IH]; simpl; intros H.
  - discriminate.
  - destruct (String.eqb_spec k k') as [->|Hne].
    + injection H as ->. now left.
    + right. now apply IH.
Qed.

Lemma res_map_dict_get (ks : list string) (d : Dict) :
  incl ks (dict_keys d) ->
  exists rs, res_map (fun k => dict_get k d) ks = Ok rs
             /\ List.length rs = List.length ks.
Proof.
  induction ks as [|k ks IH]; intros Hincl.
  - exists []. split; reflexivity.
  - destruct (dict_get_of_key k d) as [r [Hr _]].
    { apply Hincl. now left. }
    destruct IH as [rs [Hrs Hlen]].
    { intros x Hx. apply Hincl. now right. }
    exists (r :: rs). simpl. rewrite Hr. simpl. rewrite Hrs. simpl.
    split; [reflexivity | now rewrite Hlen].
Qed.

Lemma res_map_In {A B : Type} (f : A -> Res B) (l : list A) (bs : list B) :
  res_map f l = Ok bs ->
  forall b, In b bs -> exists a, In a l /\ f a = Ok b.
Proof.
  revert bs. induction l as [|a l IH]; simpl; intros bs H b Hb.
  - injection H as <-. contradiction.
  - destruct (f a) as [b0|e] eqn:Hfa; simpl in H; [|discriminate].
    destruct (res_map f l) as [bs0|e] eqn:Hl; simpl in H; [|discriminate].
    injection H as <-. destruct Hb as [<-|Hb].
    + exists a. split; [now left | exact Hfa].
    + destruct (IH bs0 eq_refl b Hb) as [a' [Ha' Hfa']].
      exists a'. split; [now right | exact Hfa'].
Qed.

Lemma new_record_keys_spec (d : Dict) (processed : list string) (k : string) :
  In k (new_record_keys d processed)
  <-> In k (dict_keys d) /\ ~ In k processed.
Proof.
  unfold new_record_keys. rewrite filter_In. unfold py_in.
  split; intros [Hk Hp]; split; try exact Hk.
  - intros Hin. apply negb_true_iff in Hp.
    assert (existsb (String.eqb k) processed = true) as Hex.
    { apply existsb_exists. exists k. split; [exact Hin | apply String.eqb_refl]. }
    congruence.
  - apply negb_true_iff. destruct (existsb (String.eqb k) processed) eqn:Hex.
    + apply existsb_exists in Hex. destruct Hex as [x [Hx Heq]].
      apply String.eqb_eq in Heq. subst x. contradiction.
    + reflexivity.
Qed.

Lemma new_record_keys_incl (d : Dict) (processed : list string) :
  incl (new_record_keys d processed) (dict_keys d).
Proof. intros k Hk. now apply new_record_keys_spec in Hk. Qed.

(** get_new_records never raises. *)
Lemma get_new_records_total (use : UseState) (processed : list string) :
  exists v, get_new_records use processed = Ok v.
Proof.
  unfold get_new_records.
  pose proof (new_record_keys_incl (_get_records use) processed) as Hincl.
  destruct (new_record_keys (_get_records use) processed) as [|k [|k' ks]].
  - now exists (RTuple []).
  - destruct (dict_get_of_key k (_get_records use)) as [r [Hr _]].
    { apply Hincl. now left. }
    exists (RBare r). simpl. now rewrite Hr.
  - destruct (res_map_dict_get (k :: k' :: ks) (_get_records use) Hincl)
      as [rs [Hrs _]].
    exists (RTuple rs). unfold itemgetter. now rewrite Hrs.
Qed.

(** Every record handed on is a record of the scope stored under a key that
    is not yet processed. *)
Lemma get_new_records_fresh (use : UseState) (processed : list string)
  (v : PyRecords) :
  get_new_records use processed = Ok v ->
  forall r, In r (records_of v) ->
  exists k, In (k, r) (_get_records use) /\ ~ In k processed.
Proof.
  unfold get_new_records. intros H r Hr.
  pose proof (new_record_keys_spec (_get_records use) processed) as Hspec.
  destruct (new_record_keys (_get_records use) processed) as [|k [|k' ks]].
  - injection H as <-. contradiction.
  - simpl in H. destruct (dict_get k (_get_records use)) as [r0|e] eqn:Hk;
      simpl in H; [|discriminate].
    injection H as <-. destruct Hr as [<-|[]].
    exists k. split; [now apply dict_get_In|]. apply Hspec. now left.
  - unfold itemgetter in H.
    destruct (res_map (fun k0 => dict_get k0 (_get_records use)) (k :: k' :: ks))
      as [rs|e] eqn:Hrs; simpl in H; [|discriminate].
    injection H as <-. simpl in Hr.
    destruct (res_map_In _ _ _ Hrs r Hr) as [k0 [Hk0 Hget]].
    exists k0. split; [now apply dict_get_In|]. now apply Hspec.
Qed.

(** C9. With exactly one new key, get_new_records returns the record
    itself and not a tuple holding it; with no new key it returns the empty
    tuple, with two or more a tuple of as many records.  So the value the
    two consumers of the result receive is a bare record exactly when there
    is one new key. *)
Theorem get_new_records_bare_iff_one_key (use : UseState)
  (processed : list string) :
  let ks := new_record_keys (_get_records use) processed in
  match ks with
  | [] => get_new_records use processed = Ok (RTuple [])
  | [k] => exists r, dict_get k (_get_records use) = Ok r
                     /\ get_new_records use processed = Ok (RBare r)
  | _ => exists rs, res_map (fun k => dict_get k (_get_records use)) ks = Ok rs
                    /\ List.length rs = List.length ks
                    /\ get_new_records use processed = Ok (RTuple rs)
  end
  /\ ((exists r, get_new_records use processed = Ok (RBare r))
      <-> List.length ks = 1).
Proof.
  intros ks. subst ks. unfold get_new_records.
  pose proof (new_record_keys_incl (_get_records use) processed) as Hincl.
  destruct (new_record_keys (_get_records use) processed) as [|k [|k' ks]].
  - split; [reflexivity|]. split; [intros [r H]; discriminate | discriminate].
  - destruct (dict_get_of_key k (_get_records use)) as [r [Hr _]].
    { apply Hincl. now left. }
    split.
    + exists r. split; [exact Hr|]. simpl. now rewrite Hr.
    + split; [reflexivity|]. intros _. exists r. simpl. now rewrite Hr.
  - destruct (res_map_dict_get (k :: k' :: ks) (_get_records use) Hincl)
      as [rs [Hrs Hlen]].
    split.
    + exists rs. split; [exact Hrs|]. split; [exact Hlen|].
      unfold itemgetter. now rewrite Hrs.
    + split; [|discriminate]. intros [r H].
      unfold itemgetter in H. rewrite Hrs in H. discriminate.
Qed.

(** A bare record cannot be iterated: both consumers of the result raise. *)
Lemma update_processed_records_bare (r : ScopeRecord) (processed : list string) :
  update_processed_records (RBare r) processed = Err TypeError.
Proof. reflexivity. Qed.

Example one_new_record_is_bare :
  get_new_records
    (mkUse [("table", mkRecord "table" "init_data" (Artifact "FeatureTable"))]
           (PyString "qiime"))
    []
  = Ok (RBare (mkRecord "table" "init_data" (Artifact "FeatureTable"))).
Proof. reflexivity. Qed.

(** ** The execution handler *)

Lemma save_test_always_true (record : ScopeRecord) :
  truthy (save_test record) = true.
Proof.
  unfold save_test, py_or. simpl.
  destruct (source record =? "init_metadata")%string; reflexivity.
Qed.

Lemma execution_records_saves (out_dir : Pathlib.PurePath)
  (rs : list ScopeRecord) (w : World) :
  execution_records out_dir rs w
  = Ok (tt, with_files w (files w ++ map (saved_as out_dir) rs)).
Proof.
  revert w. induction rs as [|r rs IH]; intros w.
  - simpl. unfold ret, with_files. rewrite app_nil_r. now destruct w.
  - simpl. rewrite save_test_always_true. unfold bind, save.
    rewrite IH. unfold with_files. simpl.
    rewrite <- app_assoc. reflexivity.
Qed.

(** C10. The execution handler reads the first node of the block before
    it looks at the records: on a block without nodes it raises an index
    error whatever the records are, the empty collection included. *)
Theorem execution_reads_first_node_first (records : PyRecords)
  (block : Block) (env : Env) (w : World) :
  nodes block = [] ->
  execution records block env w = Err IndexError.
Proof.
  intros H. unfold execution, bind, lift. rewrite H. reflexivity.
Qed.

Lemma execution_reads_first_node_first_witness :
  execution (RTuple []) (mkBlock "pass" None []) (mkEnv "docs" "/" "build")
            (mkWorld "." (mkUses (mkUse [] (PyString "x")) (mkUse [] (PyString "x"))
                                 (mkUse [] (PyString "x")) (mkUse [] (PyString "x")))
                     [] [] [])
  = Err IndexError.
Proof.
  apply execution_reads_first_node_first. reflexivity.
Defined.

Lemma execution_runs_through (rs : list ScopeRecord)
  (block block1 : Block) (env : Env) (w : World)
  (node : Node) (rd : Pathlib.PurePath * Pathlib.PurePath) (fac : bool) :
  first (nodes block) = Ok node ->
  get_docname node = Ok rd ->
  node_factory node = Ok fac ->
  (if fac then factories_to_nodes block env else Ok block) = Ok block1 ->
  exists w',
    execution (RTuple rs) block env w = Ok (block1, w')
    /\ files w' = files w ++ map (saved_as (results_dir env (snd rd))) rs.
Proof.
  intros Hfirst Hdoc Hfac Hblock.
  unfold execution, bind, lift. rewrite Hfirst, Hdoc.
  unfold ensure_dir.
  destruct (py_in (Pathlib.str (results_dir env (snd rd))) (dirs w)).
  - rewrite Hfac. destruct fac.
    + rewrite Hblock. simpl. rewrite execution_records_saves.
      eexists. split; reflexivity.
    + unfold ret. injection Hblock as <-. simpl.
      rewrite execution_records_saves. eexists. split; reflexivity.
  - rewrite Hfac. destruct fac.
    + rewrite Hblock. simpl. rewrite execution_records_saves.
      eexists. split; reflexivity.
    + unfold ret. injection Hblock as <-. simpl.
      rewrite execution_records_saves. eexists. split; reflexivity.
Qed.

(** C1. The test that guards the save is true for every record, so the
    execution handler saves the result of every record it is given, whatever
    its source, to the file named after the record in the results
    directory of the document. *)
Theorem execution_saves_every_record (rs : list ScopeRecord)
  (block block1 : Block) (env : Env) (w : World)
  (node : Node) (rd : Pathlib.PurePath * Pathlib.PurePath) (fac : bool) :
  first (nodes block) = Ok node ->
  get_docname node = Ok rd ->
  node_factory node = Ok fac ->
  (if fac then factories_to_nodes block env else Ok block) = Ok block1 ->
  (forall record, truthy (save_test record) = true)
  /\ exists w',
       execution (RTuple rs) block env w = Ok (block1, w')
       /\ files w' = files w ++ map (saved_as (results_dir env (snd rd))) rs.
Proof.
  intros Hfirst Hdoc Hfac Hblock.
  split; [exact save_test_always_true|].
  now apply execution_runs_through with (node := node) (fac := fac).
Qed.

Lemma execution_saves_every_record_witness :
  exists w',
    execution (RTuple [Sample.rarefied]) (Sample.block "pass" "tutorial" false)
              Sample.env Sample.world
    = Ok (Sample.block "pass" "tutorial" false, w')
    /\ files w'
       = [("/srv/build/tutorial/results/rarefied.qza",
           Artifact "FeatureTable[Frequency]")].
Proof.
  destruct (execution_saves_every_record
              [Sample.rarefied] (Sample.block "pass" "tutorial" false)
              (Sample.block "pass" "tutorial" false) Sample.env Sample.world
              (Sample.placeholder "tutorial" false)
              (Pathlib.Path "docs", Pathlib.Path "tutorial") false
              eq_refl eq_refl eq_refl eq_refl) as [_ H].
  exact H.
Defined.

(** ** The command-line handler *)

Lemma cli_records_no_action (use : Strategy) (rs : list ScopeRecord)
  (block : Block) (w : World) :
  find is_action rs = None -> cli_records use rs block w = Ok (block, w).
Proof.
  induction rs as [|r rs IH]; simpl; intros H.
  - reflexivity.
  - unfold is_action in H at 1.
    destruct (source r =? "action")%string; [discriminate | now apply IH].
Qed.

Lemma cli_records_first_action (use : Strategy) (rs : list ScopeRecord)
  (block : Block) (w : World) (a : ScopeRecord) :
  find is_action rs = Some a ->
  cli_records use rs block w
  = match join_empty (rendering (use_of use (uses w))) with
    | Ok example =>
        Ok (set_nodes block
              [UsageExampleNode ["Command Line"] [PyString example]],
            with_calls w (calls w ++ [EvRender use]))
    | Err e => Err e
    end.
Proof.
  induction rs as [|r rs IH]; simpl; intros H.
  - discriminate.
  - unfold is_action in H at 1.
    destruct (source r =? "action")%string.
    + unfold bind, render, bind, log, lift, ret. simpl.
      destruct (join_empty (rendering (use_of use (uses w)))); reflexivity.
    + now apply IH.
Qed.

(** C3. Under the command-line recorder the handler does nothing when no
    record was made by an action.  Otherwise it calls render once (one
    render event is logged), replaces the node list of the block by a
    single example node titled Command Line that holds the joined
    rendering, and the records after the first action play no part. *)
Theorem cli_renders_once_at_first_action (use : Strategy)
  (rs : list ScopeRecord) (block : Block) (w : World) :
  match find is_action rs with
  | None => cli use (RTuple rs) block w = Ok (block, w)
  | Some _ =>
      match join_empty (rendering (use_of use (uses w))) with
      | Ok example =>
          cli use (RTuple rs) block w
          = Ok (set_nodes block
                  [UsageExampleNode ["Command Line"] [PyString example]],
                with_calls w (calls w ++ [EvRender use]))
      | Err e => cli use (RTuple rs) block w = Err e
      end
  end.
Proof.
  unfold cli, bind, lift. simpl.
  destruct (find is_action rs) as [a|] eqn:Hfind.
  - rewrite (cli_records_first_action use rs block w a Hfind).
    destruct (join_empty (rendering (use_of use (uses w)))); reflexivity.
  - now apply cli_records_no_action.
Qed.

Example cli_stops_at_first_action :
  cli CLIUsage (RTuple [Sample.table; Sample.rarefied; Sample.rarefied])
      (Sample.block "pass" "tutorial" false) Sample.world
  = Ok (mkBlock "pass" None
          [UsageExampleNode ["Command Line"] [PyString "qiime tools"]],
        with_calls Sample.world [EvRender CLIUsage]).
Proof. reflexivity. Qed.

(** ** The artifact API handler *)

Lemma init_data_node_found (record rec : ScopeRecord) (t : string) (w : World) :
  dict_get (ref record) (_get_records (execution_value (uses w))) = Ok rec ->
  result rec = Artifact t ->
  init_data_node record w
  = Ok (UsageDataNode t
          (ref record +++ " = qiime2.Artifact.load('" +++ (ref record
           +++ ".qza") +++ "')")
          (ref record), w).
Proof.
  intros Hget Hres. unfold init_data_node, bind, _get_record, lift, ret.
  simpl. rewrite Hget, Hres. reflexivity.
Qed.

Lemma init_metadata_node_found (record rec : ScopeRecord) (df : string)
  (w : World) :
  dict_get (ref record) (_get_records (execution_value (uses w))) = Ok rec ->
  result rec = Metadata df ->
  init_metadata_node record w
  = Ok (UsageMetadataNode
          (ref record +++ " = qiime2.Metadata.load('" +++ (ref record
           +++ ".qza") +++ "')")
          df (ref record), w).
Proof.
  intros Hget Hres. unfold init_metadata_node, bind, _get_record, lift, ret.
  simpl. rewrite Hget, Hres. reflexivity.
Qed.

Lemma set_nodes_set_nodes (b : Block) (ns ns' : list Node) :
  set_nodes (set_nodes b ns) ns' = set_nodes b ns'.
Proof. reflexivity. Qed.

Lemma artifact_api_records_prefix (use : Strategy) (pre : list ScopeRecord)
  (added : list (list Node)) (rest : list ScopeRecord) (w : World) :
  Forall2 (appended (_get_records (execution_value (uses w)))) pre added ->
  forall block,
    artifact_api_records use (pre ++ rest) block w
    = artifact_api_records use rest
        (set_nodes block (nodes block ++ concat added)) w.
Proof.
  induction 1 as [|r ns pre added Hr _ IH]; intros block.
  - simpl. rewrite app_nil_r. now destruct block.
  - simpl app. simpl artifact_api_records.
    destruct Hr as [r rec t Hs Hget Hres | r rec df Hs Hget Hres | r H1 H2 H3].
    + rewrite Hs. simpl. unfold bind at 1.
      rewrite (init_data_node_found r rec t w Hget Hres).
      rewrite IH. simpl. rewrite <- app_assoc. reflexivity.
    + rewrite Hs. simpl. unfold bind at 1.
      rewrite (init_metadata_node_found r rec df w Hget Hres).
      rewrite IH. simpl. rewrite <- app_assoc. reflexivity.
    + apply String.eqb_neq in H1, H2, H3. rewrite H1, H2, H3.
      rewrite IH. reflexivity.
Qed.

(** C4. Under the artifact API recorder every record before the first
    action adds its node at the end of the block: a data node for a record
    made by init_data, a metadata node for one made by init_metadata.  At
    the first record made by an action the handler calls render once and
    extends the example node that heads the block with the title Artifact
    API and the rendering, creating no node, and the records after it play
    no part. *)
Theorem artifact_api_appends_then_extends (use : Strategy)
  (pre : list ScopeRecord) (added : list (list Node)) (block : Block)
  (w : World) :
  Forall2 (appended (_get_records (execution_value (uses w)))) pre added ->
  artifact_api use (RTuple pre) block w
  = Ok (set_nodes block (nodes block ++ concat added), w)
  /\ forall (a : ScopeRecord) (post : list ScopeRecord)
       (titles : list string) (examples : list PyObj) (others : list Node),
       source a = "action" ->
       nodes block = UsageExampleNode titles examples :: others ->
       artifact_api use (RTuple (pre ++ a :: post)) block w
       = Ok (set_nodes block
               (UsageExampleNode (titles ++ ["Artifact API"])
                  (examples ++ [rendering (use_of use (uses w))])
                :: others ++ concat added),
             with_calls w (calls w ++ [EvRender use])).
Proof.
  intros Hpre. split.
  - unfold artifact_api, bind, lift. simpl.
    rewrite <- (app_nil_r pre) at 1.
    rewrite (artifact_api_records_prefix use pre added [] w Hpre).
    reflexivity.
  - intros a post titles examples others Ha Hnodes.
    unfold artifact_api, bind, lift. simpl.
    rewrite (artifact_api_records_prefix use pre added (a :: post) w Hpre).
    simpl. rewrite Ha. simpl. rewrite Hnodes. simpl.
    unfold bind, lift, render, bind, log, ret. simpl. reflexivity.
Qed.

Lemma artifact_api_appends_then_extends_witness :
  artifact_api ArtifactAPIUsage
    (RTuple ([Sample.table; Sample.md] ++ Sample.rarefied :: [Sample.table]))
    (mkBlock "load" None [UsageExampleNode ["Command Line"] [PyString "qiime"]])
    Sample.loaded_world
  = Ok (mkBlock "load" None
          [UsageExampleNode ["Command Line"; "Artifact API"]
             [PyString "qiime"; PyLines ["qiime "; "tools"]];
           UsageDataNode "FeatureTable[Frequency]"
             "table = qiime2.Artifact.load('table.qza')" "table";
           UsageMetadataNode "md = qiime2.Metadata.load('md.qza')"
             "id  ph" "md"],
        with_calls Sample.loaded_world [EvRender ArtifactAPIUsage]).
Proof.
  refine (proj2 (artifact_api_appends_then_extends ArtifactAPIUsage
                   [Sample.table; Sample.md]
                   [[UsageDataNode "FeatureTable[Frequency]"
                       "table = qiime2.Artifact.load('table.qza')" "table"];
                    [UsageMetadataNode "md = qiime2.Metadata.load('md.qza')"
                       "id  ph" "md"]]
                   (mkBlock "load" None
                      [UsageExampleNode ["Command Line"] [PyString "qiime"]])
                   Sample.loaded_world _)
            Sample.rarefied [Sample.table] ["Command Line"]
            [PyString "qiime"] [] eq_refl eq_refl).
  apply Forall2_cons.
  - apply (appended_data _ Sample.table Sample.table "FeatureTable[Frequency]");
      reflexivity.
  - apply Forall2_cons.
    + apply (appended_metadata _ Sample.md Sample.md "id  ph"); reflexivity.
    + apply Forall2_nil.
Defined.

(** ** Factory blocks *)

Lemma pop_last {A : Type} (pre : list A) (x : A) :
  pop (pre ++ [x]) = Ok (x, pre).
Proof.
  destruct pre as [|a pre]; [reflexivity|].
  pose proof (removelast_last (a :: pre) x) as Hrem.
  simpl app in *. unfold pop. rewrite last_last, Hrem. reflexivity.
Qed.

Lemma pop_length {A : Type} (l rest : list A) (x : A) :
  pop l = Ok (x, rest) -> List.length l = S (List.length rest).
Proof.
  destruct l as [|a l]; [discriminate|].
  destruct (exists_last (l := a :: l)) as [pre [y Hy]]; [discriminate|].
  rewrite Hy, pop_last. intros H. injection H as _ <-.
  rewrite length_app. simpl. lia.
Qed.

Lemma pop_inv {A : Type} (l rest : list A) (x : A) :
  pop l = Ok (x, rest) -> l = rest ++ [x].
Proof.
  destruct l as [|a l]; [discriminate|].
  destruct (exists_last (l := a :: l)) as [pre [y Hy]]; [discriminate|].
  rewrite Hy, pop_last. intros H. now injection H as -> ->.
Qed.

Lemma factories_to_nodes_last (block : Block) (env : Env) (pre : list Node)
  (src : string) (fac : bool) (name : string)
  (rd : Pathlib.PurePath * Pathlib.PurePath) :
  nodes block = pre ++ [UsageNode (Some src) fac name] ->
  get_docname (UsageNode (Some src) fac name) = Ok rd ->
  factories_to_nodes block env
  = Ok (set_nodes block (pre ++ [factory_node_for env (snd rd) name])).
Proof.
  intros Hnodes Hdoc. unfold factories_to_nodes.
  rewrite Hnodes, pop_last. simpl res_bind. rewrite Hdoc. reflexivity.
Qed.

Lemma factories_to_nodes_length (block block' : Block) (env : Env) :
  factories_to_nodes block env = Ok block' ->
  List.length (nodes block') = List.length (nodes block).
Proof.
  unfold factories_to_nodes. intros H.
  destruct (pop (nodes block)) as [[node rest]|e] eqn:Hpop; [|discriminate].
  simpl in H.
  destruct (get_docname node) as [rd|e]; [|discriminate]. simpl in H.
  destruct (node_name node) as [nm|e]; [|discriminate]. simpl in H.
  injection H as <-. simpl. rewrite length_app. simpl.
  apply pop_length in Hpop. lia.
Qed.

Lemma factories_to_nodes_without_source (block : Block) (env : Env)
  (pre : list Node) (n : Node) :
  nodes block = pre ++ [n] -> node_source n = None ->
  factories_to_nodes block env = Err TypeError.
Proof.
  intros Hnodes Hsrc. unfold factories_to_nodes.
  rewrite Hnodes, pop_last. simpl res_bind.
  unfold get_docname. rewrite Hsrc. reflexivity.
Qed.

(** C5. A block whose first node is the placeholder of its document, tagged
    as a factory and called name.  When the placeholder is the only node of
    the block, the execution handler replaces it by a factory node with
    relative URL results/name.qza, absolute URL base/doc/results/name.qza
    (base being the configured URL without trailing slashes and doc the
    name of the document), file name name.qza and reference name.  When
    the handlers that ran before have put nodes of their own behind the
    placeholder, which have no source file, the execution handler raises a
    type error: no block leaves it with its placeholder still in place. *)
Theorem execution_replaces_factory_placeholder (rs : list ScopeRecord)
  (block : Block) (env : Env) (w : World) (src name : string)
  (rest : list Node) (rd : Pathlib.PurePath * Pathlib.PurePath) :
  nodes block = UsageNode (Some src) true name :: rest ->
  get_docname (UsageNode (Some src) true name) = Ok rd ->
  Forall (fun n => node_source n = None) rest ->
  match rest with
  | [] =>
      exists w',
        execution (RTuple rs) block env w
        = Ok (set_nodes block
                [FactoryNode ("results/" +++ name +++ ".qza")
                   (PyStr.rstrip "/" (base_url env) +++ "/"
                    +++ Pathlib.str (snd rd) +++ "/"
                    +++ "results/" +++ name +++ ".qza")
                   (name +++ ".qza") name None],
              w')
  | _ :: _ => execution (RTuple rs) block env w = Err TypeError
  end.
Proof.
  intros Hnodes Hdoc Hrest. destruct rest as [|n rest].
  - destruct (execution_runs_through rs block
                (set_nodes block [factory_node_for env (snd rd) name])
                env w (UsageNode (Some src) true name) rd true)
      as [w' [Hw' _]].
    + now rewrite Hnodes.
    + exact Hdoc.
    + reflexivity.
    + now apply (factories_to_nodes_last block env [] src true name rd).
    + exists w'. exact Hw'.
  - destruct (exists_last (l := n :: rest)) as [pre [x Hx]]; [discriminate|].
    assert (node_source x = None) as Hsrc.
    { rewrite Forall_forall in Hrest. apply Hrest. rewrite Hx.
      apply in_or_app. right. now left. }
    assert (factories_to_nodes block env = Err TypeError) as Hfac.
    { apply (factories_to_nodes_without_source block env
               (UsageNode (Some src) true name :: pre) x); [|exact Hsrc].
      rewrite Hnodes, Hx. reflexivity. }
    assert (first (nodes block) = Ok (UsageNode (Some src) true name))
      as Hfirst by now rewrite Hnodes.
    unfold execution, bind, lift. rewrite Hfirst, Hdoc. unfold ensure_dir.
    destruct (py_in (Pathlib.str (results_dir env (snd rd))) (dirs w));
      simpl; rewrite Hfac; reflexivity.
Qed.

Lemma execution_replaces_factory_placeholder_witness :
  exists w',
    execution (RTuple [Sample.table]) (Sample.block "load" "table" true)
              Sample.env Sample.world
    = Ok (mkBlock "load" None
            [FactoryNode "results/table.qza"
               "https://docs.example.org/tutorial/results/table.qza"
               "table.qza" "table" None],
          w').
Proof.
  exact (execution_replaces_factory_placeholder
           [Sample.table] (Sample.block "load" "table" true)
           Sample.env Sample.world "/srv/docs/tutorial.rst" "table" []
           (Pathlib.Path "docs", Pathlib.Path "tutorial")
           eq_refl eq_refl (Forall_nil _)).
Defined.

(** A factory block to which the artifact API handler has added a data
    node: the execution handler takes the data node for the placeholder and
    fails on its missing source file. *)
Example execution_fails_on_factory_block_with_data_node :
  execution (RTuple [Sample.table])
            (mkBlock "load" None
               [Sample.placeholder "table" true;
                UsageDataNode "FeatureTable[Frequency]"
                  "table = qiime2.Artifact.load('table.qza')" "table"])
            Sample.env Sample.world
  = Err TypeError.
Proof. reflexivity. Qed.

(** ** Dispatch on an empty collection *)

Lemma execution_empty_inv (block block' : Block) (env : Env) (w w' : World) :
  execution (RTuple []) block env w = Ok (block', w') ->
  exists n fac,
    first (nodes block) = Ok n /\ node_factory n = Ok fac
    /\ (if fac then factories_to_nodes block env = Ok block'
        else block' = block).
Proof.
  unfold execution, bind, lift. intros H.
  destruct (first (nodes block)) as [n|e]; [|discriminate].
  destruct (get_docname n) as [rd|e]; [|discriminate].
  destruct (ensure_dir (Pathlib.str (results_dir env (snd rd))) w)
    as [[u w1]|e]; [|discriminate].
  destruct (node_factory n) as [fac|e] eqn:Hfac; [|discriminate].
  exists n, fac. split; [reflexivity|]. split; [exact Hfac|].
  destruct fac.
  - destruct (factories_to_nodes block env) as [b|e]; [|discriminate].
    simpl in H. unfold ret in H. injection H as H _. now rewrite H.
  - simpl in H. unfold ret in H. injection H as H _. now rewrite H.
Qed.

(** C8, as the code has it.  When a handler receives the empty tuple, the
    processed names are unchanged after the dispatch.  The command-line and
    artifact API handlers return the block and the state as they are.  A
    handler that returns leaves the block with its number of nodes; the
    diagnostic handler leaves the block as it is, and so does the execution
    handler unless the first node is tagged as a factory, in which case it
    still turns the last node into a factory node. *)
Theorem empty_dispatch_frame (visit : AST -> Res unit) (use : Strategy)
  (block : Block) (env : Env) (w : World) (processed : list string) :
  update_processed_records (RTuple []) processed = Ok processed
  /\ (use = CLIUsage \/ use = ArtifactAPIUsage ->
      records_to_nodes visit use (RTuple []) block env w = Ok (block, w))
  /\ forall (block' : Block) (w' : World),
       records_to_nodes visit use (RTuple []) block env w = Ok (block', w') ->
       List.length (nodes block') = List.length (nodes block)
       /\ match use with
          | ExecutionUsage =>
              exists n fac,
                first (nodes block) = Ok n /\ node_factory n = Ok fac
                /\ (if fac then factories_to_nodes block env = Ok block'
                    else block' = block)
          | _ => block' = block
          end.
Proof.
  split; [|split].
  - unfold update_processed_records. simpl. now rewrite app_nil_r.
  - intros [-> | ->]; reflexivity.
  - intros block' w' H. destruct use; simpl in H.
    + unfold diagnostic in H. destruct (tree block) as [t|]; [|discriminate].
      unfold bind, lift, ret in H. destruct (visit t); [|discriminate].
      injection H as <- _. split; reflexivity.
    + unfold cli, bind, lift, ret in H. simpl in H. unfold ret in H.
      injection H as <- _. split; reflexivity.
    + unfold artifact_api, bind, lift, ret in H. simpl in H. unfold ret in H.
      injection H as <- _. split; reflexivity.
    + destruct (execution_empty_inv block block' env w w' H)
        as [n [fac [Hn [Hfac Hb]]]].
      split.
      * destruct fac; [now apply factories_to_nodes_length with env|].
        now subst block'.
      * now exists n, fac.
Qed.

Lemma empty_dispatch_frame_witness :
  List.length
    [FactoryNode "results/table.qza"
       "https://docs.example.org/tutorial/results/table.qza"
       "table.qza" "table" None]
  = List.length (nodes (Sample.block "load" "table" true))
  /\ exists n fac,
       first (nodes (Sample.block "load" "table" true)) = Ok n
       /\ node_factory n = Ok fac
       /\ (if fac
           then factories_to_nodes (Sample.block "load" "table" true) Sample.env
                = Ok (mkBlock "load" None
                        [FactoryNode "results/table.qza"
                           "https://docs.example.org/tutorial/results/table.qza"
                           "table.qza" "table" None])
           else mkBlock "load" None
                  [FactoryNode "results/table.qza"
                     "https://docs.example.org/tutorial/results/table.qza"
                     "table.qza" "table" None]
                = Sample.block "load" "table" true).
Proof.
  exact (proj2 (proj2 (empty_dispatch_frame Sample.visit ExecutionUsage
                         (Sample.block "load" "table" true)
                         Sample.env Sample.world ["table"]))
           (mkBlock "load" None
              [FactoryNode "results/table.qza"
                 "https://docs.example.org/tutorial/results/table.qza"
                 "table.qza" "table" None])
           (mkWorld "/" (uses Sample.world) ["/srv/build/tutorial/results"]
                    [] [])
           eq_refl).
Defined.

(** C8, as the claim states it, fails: on a block whose placeholder is
    tagged as a factory the execution handler puts a factory node into the
    node list although it received no record. *)
Lemma empty_dispatch_adds_factory_node_counterexample :
  ~ (forall (use : Strategy) (block block' : Block) (env : Env)
            (w w' : World),
        records_to_nodes Sample.visit use (RTuple []) block env w
        = Ok (block', w') ->
        incl (nodes block') (nodes block)).
Proof.
  intros H.
  pose proof (H ExecutionUsage (Sample.block "load" "table" true)
                (mkBlock "load" None
                   [FactoryNode "results/table.qza"
                      "https://docs.example.org/tutorial/results/table.qza"
                      "table.qza" "table" None])
                Sample.env Sample.world
                (mkWorld "/" (uses Sample.world)
                         ["/srv/build/tutorial/results"] [] [])
                eq_refl) as Hincl.
  specialize (Hincl _ (or_introl eq_refl)).
  simpl in Hincl. destruct Hincl as [Hin|[]]. discriminate Hin.
Qed.

(** ** What a handler may change *)

Lemma bind_ok {A B : Type} (m : M A) (k : A -> M B) (w w' : World) (b : B) :
  bind m k w = Ok (b, w') ->
  exists a w1, m w = Ok (a, w1) /\ k a w1 = Ok (b, w').
Proof.
  unfold bind. destruct (m w) as [[a w1]|e]; [|discriminate].
  intros H. now exists a, w1.
Qed.

Lemma lift_ok {A : Type} (r : Res A) (w w' : World) (a : A) :
  lift r w = Ok (a, w') -> r = Ok a /\ w' = w.
Proof.
  unfold lift. destruct r as [a0|e]; [|discriminate].
  intros H. injection H as -> ->. split; reflexivity.
Qed.

Lemma ret_ok {A : Type} (a b : A) (w w' : World) :
  ret a w = Ok (b, w') -> b = a /\ w' = w.
Proof. unfold ret. intros H. injection H as -> ->. split; reflexivity. Qed.

Lemma only_renders_refl (w : World) : only_renders w w.
Proof. exists []. rewrite app_nil_r. repeat split. Qed.

Lemma only_renders_trans (w1 w2 w3 : World) :
  only_renders w1 w2 -> only_renders w2 w3 -> only_renders w1 w3.
Proof.
  intros [e1 [H1 [F1 U1]]] [e2 [H2 [F2 U2]]]. exists (e1 ++ e2).
  split; [now rewrite H2, H1, app_assoc|].
  split; [now rewrite forallb_app, F1, F2 | congruence].
Qed.

Lemma render_only_renders (use : Strategy) (w w' : World) (v : PyObj) :
  render use w = Ok (v, w') -> only_renders w w'.
Proof.
  unfold render, bind, log. intros H. injection H as _ <-.
  exists [EvRender use]. repeat split.
Qed.

Lemma init_data_node_world (r : ScopeRecord) (w w' : World) (n : Node) :
  init_data_node r w = Ok (n, w') -> w' = w.
Proof.
  unfold init_data_node, bind, _get_record, lift, ret. simpl.
  destruct (dict_get (ref r) (_get_records (execution_value (uses w))))
    as [rec|e]; [|discriminate].
  destruct (result_type (result rec)); [|discriminate].
  intros H. now injection H as _ <-.
Qed.

Lemma init_metadata_node_world (r : ScopeRecord) (w w' : World) (n : Node) :
  init_metadata_node r w = Ok (n, w') -> w' = w.
Proof.
  unfold init_metadata_node, bind, _get_record, lift, ret. simpl.
  destruct (dict_get (ref r) (_get_records (execution_value (uses w))))
    as [rec|e]; [|discriminate].
  destruct (to_dataframe_str (result rec)); [|discriminate].
  intros H. now injection H as _ <-.
Qed.

Lemma cli_records_only_renders (use : Strategy) (rs : list ScopeRecord)
  (block block' : Block) (w w' : World) :
  cli_records use rs block w = Ok (block', w') -> only_renders w w'.
Proof.
  induction rs as [|r rs IH]; simpl.
  - intros H. apply ret_ok in H as [_ ->]. apply only_renders_refl.
  - destruct (source r =? "action")%string; [|exact IH].
    intros H. apply bind_ok in H as [v [w1 [Hr H]]].
    apply bind_ok in H as [ex [w2 [Hl H]]].
    apply lift_ok in Hl as [_ ->]. apply ret_ok in H as [_ ->].
    now apply render_only_renders in Hr.
Qed.

Lemma artifact_api_records_only_renders (use : Strategy)
  (rs : list ScopeRecord) (block block' : Block) (w w' : World) :
  artifact_api_records use rs block w = Ok (block', w') -> only_renders w w'.
Proof.
  revert block. induction rs as [|r rs IH]; simpl; intros block.
  - intros H. apply ret_ok in H as [_ ->]. apply only_renders_refl.
  - destruct (source r =? "init_data")%string.
    { intros H. apply bind_ok in H as [n [w1 [Hn H]]].
      apply init_data_node_world in Hn as ->. now apply IH in H. }
    destruct (source r =? "init_metadata")%string.
    { intros H. apply bind_ok in H as [n [w1 [Hn H]]].
      apply init_metadata_node_world in Hn as ->. now apply IH in H. }
    destruct (source r =? "action")%string; [|apply IH].
    intros H. apply bind_ok in H as [n [w1 [Hn H]]].
    apply lift_ok in Hn as [_ ->].
    apply bind_ok in H as [v [w2 [Hr H]]].
    apply bind_ok in H as [n' [w3 [Hl H]]].
    apply lift_ok in Hl as [_ ->]. apply ret_ok in H as [_ ->].
    now apply render_only_renders in Hr.
Qed.

Lemma execution_only_renders (records : PyRecords) (block block' : Block)
  (env : Env) (w w' : World) :
  execution records block env w = Ok (block', w') -> only_renders w w'.
Proof.
  unfold execution. intros H.
  apply bind_ok in H as [n [w1 [H1 H]]]. apply lift_ok in H1 as [_ ->].
  apply bind_ok in H as [rd [w1 [H1 H]]]. apply lift_ok in H1 as [_ ->].
  apply bind_ok in H as [u [w1 [Hdir H]]].
  apply bind_ok in H as [n0 [w2 [H1 H]]]. apply lift_ok in H1 as [_ ->].
  apply bind_ok in H as [fac [w2 [H1 H]]]. apply lift_ok in H1 as [_ ->].
  apply bind_ok in H as [b1 [w2 [Hb H]]].
  apply bind_ok in H as [rs [w3 [H1 H]]]. apply lift_ok in H1 as [_ ->].
  apply bind_ok in H as [u' [w3 [Hsave H]]]. apply ret_ok in H as [_ ->].
  assert (w2 = w1) as ->.
  { destruct fac; [now apply lift_ok in Hb as [_ ->]
                  | now apply ret_ok in Hb as [_ ->]]. }
  rewrite execution_records_saves in Hsave. injection Hsave as _ <-.
  exists []. rewrite app_nil_r. unfold ensure_dir in Hdir.
  destruct (py_in (Pathlib.str (results_dir env (snd rd))) (dirs w));
    injection Hdir as _ <-; repeat split.
Qed.

Lemma records_to_nodes_only_renders (visit : AST -> Res unit)
  (use : Strategy) (records : PyRecords) (block block' : Block) (env : Env)
  (w w' : World) :
  records_to_nodes visit use records block env w = Ok (block', w') ->
  only_renders w w'.
Proof.
  destruct use; simpl; intros H.
  - unfold diagnostic in H. destruct (tree block) as [t|].
    + apply bind_ok in H as [u [w1 [H1 H]]]. apply lift_ok in H1 as [_ ->].
      apply ret_ok in H as [_ ->]. apply only_renders_refl.
    + discriminate.
  - unfold cli in H. apply bind_ok in H as [rs [w1 [H1 H]]].
    apply lift_ok in H1 as [_ ->]. now apply cli_records_only_renders in H.
  - unfold artifact_api in H. apply bind_ok in H as [rs [w1 [H1 H]]].
    apply lift_ok in H1 as [_ ->].
    now apply artifact_api_records_only_renders in H.
  - now apply execution_only_renders in H.
Qed.

(** *** What a handler that returns has done *)

Lemma render_world (use : Strategy) (w w' : World) (v : PyObj) :
  render use w = Ok (v, w') -> w' = with_calls w (calls w ++ [EvRender use]).
Proof.
  unfold render, bind, log. intros H. now injection H as _ <-.
Qed.

Lemma cli_records_frame (use : Strategy) (rs : list ScopeRecord)
  (block block' : Block) (w w' : World) :
  cli_records use rs block w = Ok (block', w') ->
  (w' = w \/ w' = with_calls w (calls w ++ [EvRender use]))
  /\ code block' = code block /\ tree block' = tree block.
Proof.
  induction rs as [|r rs IH]; simpl.
  - intros H. apply ret_ok in H as [-> ->]. repeat split. now left.
  - destruct (source r =? "action")%string; [|exact IH].
    intros H. apply bind_ok in H as [v [w1 [Hr H]]].
    apply bind_ok in H as [ex [w2 [Hl H]]].
    apply lift_ok in Hl as [_ ->]. apply ret_ok in H as [-> ->].
    apply render_world in Hr. repeat split. now right.
Qed.

Lemma artifact_api_records_frame (use : Strategy) (rs : list ScopeRecord) :
  forall (block block' : Block) (w w' : World),
    artifact_api_records use rs block w = Ok (block', w') ->
    (w' = w \/ w' = with_calls w (calls w ++ [EvRender use]))
    /\ code block' = code block /\ tree block' = tree block.
Proof.
  induction rs as [|r rs IH]; simpl; intros block block' w w'.
  - intros H. apply ret_ok in H as [-> ->]. repeat split. now left.
  - destruct (source r =? "init_data")%string.
    { intros H. apply bind_ok in H as [n [w1 [Hn H]]].
      apply init_data_node_world in Hn as ->. now apply IH in H. }
    destruct (source r =? "init_metadata")%string.
    { intros H. apply bind_ok in H as [n [w1 [Hn H]]].
      apply init_metadata_node_world in Hn as ->. now apply IH in H. }
    destruct (source r =? "action")%string; [|apply IH].
    intros H. apply bind_ok in H as [n [w1 [Hn H]]].
    apply lift_ok in Hn as [_ ->].
    apply bind_ok in H as [v [w2 [Hr H]]].
    apply bind_ok in H as [n' [w3 [Hl H]]].
    apply lift_ok in Hl as [_ ->]. apply ret_ok in H as [-> ->].
    apply render_world in Hr. repeat split. now right.
Qed.

Lemma factories_to_nodes_keeps_code (block block' : Block) (env : Env) :
  factories_to_nodes block env = Ok block' ->
  code block' = code block /\ tree block' = tree block.
Proof.
  unfold factories_to_nodes. intros H.
  destruct (pop (nodes block)) as [[node rest]|e]; [|discriminate].
  simpl in H.
  destruct (get_docname node) as [rd|e]; [|discriminate]. simpl in H.
  destruct (node_name node) as [nm|e]; [|discriminate]. simpl in H.
  injection H as <-. split; reflexivity.
Qed.

(** What [execution] does step by step when it returns. *)
Lemma execution_ok_inv (records : PyRecords) (block block' : Block)
  (env : Env) (w w' : World) :
  execution records block env w = Ok (block', w') ->
  exists node rd fac rs,
    first (nodes block) = Ok node
    /\ get_docname node = Ok rd
    /\ node_factory node = Ok fac
    /\ (if fac then factories_to_nodes block env = Ok block'
        else block' = block)
    /\ records = RTuple rs
    /\ ensure_dir (Pathlib.str (results_dir env (snd rd))) w
       = Ok (tt, with_files w' (files w))
    /\ files w' = files w ++ map (saved_as (results_dir env (snd rd))) rs.
Proof.
  unfold execution. intros H.
  apply bind_ok in H as [n [w1 [H1 H]]]. apply lift_ok in H1 as [Hn ->].
  apply bind_ok in H as [rd [w1 [H1 H]]]. apply lift_ok in H1 as [Hrd ->].
  apply bind_ok in H as [u [w1 [Hdir H]]].
  apply bind_ok in H as [n0 [w2 [H1 H]]]. apply lift_ok in H1 as [Hn0 ->].
  rewrite Hn in Hn0. injection Hn0 as <-.
  apply bind_ok in H as [fac [w2 [H1 H]]]. apply lift_ok in H1 as [Hfac ->].
  apply bind_ok in H as [b1 [w2 [Hb H]]].
  apply bind_ok in H as [rs [w3 [H1 H]]]. apply lift_ok in H1 as [Hrs ->].
  apply bind_ok in H as [u' [w3 [Hsave H]]]. apply ret_ok in H as [-> ->].
  rewrite execution_records_saves in Hsave. injection Hsave as _ <-.
  exists n, rd, fac, rs.
  assert (w2 = w1 /\ (if fac then factories_to_nodes block env = Ok b1
                      else b1 = block)) as [-> Hb1].
  { destruct fac.
    - unfold lift in Hb.
      destruct (factories_to_nodes block env) as [b|e]; [|discriminate].
      injection Hb as -> ->. split; reflexivity.
    - apply ret_ok in Hb as [-> ->]. split; reflexivity. }
  destruct records as [l|r]; simpl in Hrs; [|discriminate].
  injection Hrs as ->.
  assert (files w1 = files w) as Hfiles.
  { unfold ensure_dir in Hdir.
    destruct (py_in (Pathlib.str (results_dir env (snd rd))) (dirs w));
      now injection Hdir as _ <-. }
  repeat split; try assumption.
  - destruct u. rewrite Hdir. unfold with_files. simpl.
    rewrite <- Hfiles. now destruct w1.
  - simpl. now rewrite Hfiles.
Qed.

Lemma ok_state_eq {A : Type} (a b : A) (w w' : World) :
  Ok (a, w) = Ok (b, w') -> w = w'.
Proof. intros H. now injection H. Qed.

Lemma records_to_nodes_keeps_code (visit : AST -> Res unit) (use : Strategy)
  (records : PyRecords) (block block' : Block) (env : Env) (w w' : World) :
  records_to_nodes visit use records block env w = Ok (block', w') ->
  code block' = code block /\ tree block' = tree block.
Proof.
  destruct use; simpl; intros H.
  - unfold diagnostic in H.
    destruct (tree block) as [t|] eqn:Ht; [|discriminate].
    apply bind_ok in H as [u [w1 [H1 H]]]. apply ret_ok in H as [-> _].
    split; [reflexivity | now rewrite Ht].
  - unfold cli in H. apply bind_ok in H as [rs [w1 [H1 H]]].
    now apply cli_records_frame in H.
  - unfold artifact_api in H. apply bind_ok in H as [rs [w1 [H1 H]]].
    now apply artifact_api_records_frame in H.
  - apply execution_ok_inv in H as [n [rd [fac [rs [_ [_ [_ [Hb _]]]]]]]].
    destruct fac; [now apply factories_to_nodes_keeps_code with env|].
    subst block'. split; reflexivity.
Qed.

Lemma execution_keeps_calls (records : PyRecords) (block block' : Block)
  (env : Env) (w w' : World) :
  execution records block env w = Ok (block', w') ->
  calls w' = calls w /\ cwd w' = cwd w /\ uses w' = uses w.
Proof.
  intros H.
  apply execution_ok_inv in H
    as [node [rd [fac [rs [_ [_ [_ [_ [_ [Hdir _]]]]]]]]]].
  unfold ensure_dir in Hdir.
  destruct (py_in (Pathlib.str (results_dir env (snd rd))) (dirs w));
    apply ok_state_eq in Hdir as Hw;
    pose proof (f_equal calls Hw) as Hl; pose proof (f_equal cwd Hw) as Hc;
    pose proof (f_equal uses Hw) as Hu; simpl in Hl, Hc, Hu; auto.
Qed.

(** ** A run, call by call *)

Lemma use_of_set_use (use : Strategy) (u : UseState) (us : Uses) :
  use_of use (set_use use u us) = u.
Proof. destruct use; reflexivity. Qed.

Lemma use_of_set_use_other (use s : Strategy) (u : UseState) (us : Uses) :
  s <> use -> use_of s (set_use use u us) = use_of s us.
Proof.
  destruct use, s; simpl; intros H; try reflexivity; now contradiction H.
Qed.

Lemma all_keyed_set_use (use : Strategy) (u : UseState) (us : Uses) :
  all_keyed us -> keyed_by_ref (_get_records u) ->
  all_keyed (set_use use u us).
Proof.
  intros Hall Hu s. specialize (Hall s).
  destruct use, s; simpl; assumption.
Qed.

Lemma py_iter_records_of (v : PyRecords) (rs : list ScopeRecord) :
  py_iter v = Ok rs -> rs = records_of v.
Proof. destruct v; simpl; intros H; [now injection H | discriminate]. Qed.

Lemma update_processed_records_names (v : PyRecords) (p p' : list string) :
  update_processed_records v p = Ok p' ->
  p' = p ++ map ref (records_of v).
Proof.
  unfold update_processed_records.
  destruct v; simpl; intros H; [now injection H | discriminate].
Qed.

Lemma skips_processed_fresh (cs : list Call) :
  forall (p : list string),
    skips_processed p cs ->
    forall c, In c cs ->
    forall r, In r (records_of (call_records c)) -> ~ In (ref r) p.
Proof.
  induction cs as [|c0 cs IH]; intros p H c Hc r Hr; [contradiction|].
  destruct H as [_ [Hfresh Hrest]].
  destruct Hc as [<-|Hc].
  - now apply Hfresh.
  - intros Hin. apply (IH _ Hrest c Hc r Hr). apply in_or_app. now left.
Qed.

Lemma skips_processed_no_name_twice (cs : list Call) (p : list string) :
  skips_processed p cs -> no_name_twice cs.
Proof.
  intros H cs1 c1 cs2 c2 cs3 r1 r2 Heq H1 H2. subst cs.
  revert p H. induction cs1 as [|c cs1 IH]; intros p H.
  - destruct H as [_ [_ Hrest]]. intros Heq.
    apply (skips_processed_fresh _ _ Hrest c2 (in_elt c2 cs2 cs3) r2 H2).
    apply in_or_app. right. rewrite Heq. now apply in_map.
  - destruct H as [_ [_ Hrest]]. exact (IH _ Hrest).
Qed.

Section Run.

Variable ast_parse : string -> Res AST.
Variable py_exec : AST -> Strategy -> UseState -> Res UseState.
Variable visit : AST -> Res unit.

(** What [process_block] does step by step when it returns. *)
Lemma process_block_inv (use : Strategy) (env : Env) (p p' : list string)
  (i : nat) (block b' : Block) (w w' : World) :
  process_block ast_parse py_exec visit use env p i block w
  = Ok ((b', p'), w') ->
  exists (t : AST) (u : UseState) (v : PyRecords),
    ast_parse (code block) = Ok t
    /\ py_exec t use (use_of use (uses w)) = Ok u
    /\ get_new_records u p = Ok v
    /\ records_to_nodes visit use v (set_tree block t) env
         (at_dispatch use i u v p w)
       = Ok (b', w')
    /\ update_processed_records v p = Ok p'.
Proof.
  unfold process_block. intros H.
  apply bind_ok in H as [t [w1 [H1 H]]]. apply lift_ok in H1 as [Hparse ->].
  apply bind_ok in H as [u1 [w1 [Hlog1 H]]].
  unfold log in Hlog1. injection Hlog1 as _ <-.
  apply bind_ok in H as [u2 [w2 [Hexec H]]].
  unfold exec in Hexec. simpl in Hexec.
  destruct (py_exec t use (use_of use (uses w))) as [u|e] eqn:Hpy;
    [|discriminate].
  injection Hexec as _ <-.
  apply bind_ok in H as [u3 [w3 [Hlog2 H]]].
  unfold log in Hlog2. injection Hlog2 as _ <-. simpl in H.
  apply bind_ok in H as [v [w4 [Hnew H]]]. simpl in Hnew.
  rewrite use_of_set_use in Hnew.
  destruct (get_new_records u p) as [v0|e] eqn:Hget; [|discriminate].
  injection Hnew as <- <-.
  apply bind_ok in H as [u4 [w5 [Hlog3 H]]].
  unfold log in Hlog3. injection Hlog3 as _ <-. simpl in H.
  apply bind_ok in H as [b1 [w6 [Hdisp H]]].
  apply bind_ok in H as [p1 [w7 [Hupd H]]].
  apply lift_ok in Hupd as [Hupd ->]. apply ret_ok in H as [H ->].
  injection H as -> ->.
  exists t, u, v0. repeat split; try assumption.
  unfold at_dispatch. rewrite <- !app_assoc in Hdisp. exact Hdisp.
Qed.

(** The converse: the five steps make [process_block] return. *)
Lemma process_block_steps (use : Strategy) (env : Env) (p p' : list string)
  (i : nat) (block b' : Block) (w w' : World)
  (t : AST) (u : UseState) (v : PyRecords) :
  ast_parse (code block) = Ok t ->
  py_exec t use (use_of use (uses w)) = Ok u ->
  get_new_records u p = Ok v ->
  records_to_nodes visit use v (set_tree block t) env
    (at_dispatch use i u v p w) = Ok (b', w') ->
  update_processed_records v p = Ok p' ->
  process_block ast_parse py_exec visit use env p i block w
  = Ok ((b', p'), w').
Proof.
  intros Hparse Hpy Hget Hdisp Hupd.
  unfold process_block, bind, lift, log, exec, ret. rewrite Hparse. simpl.
  rewrite Hpy. simpl. rewrite use_of_set_use, Hget. simpl.
  unfold at_dispatch in Hdisp. rewrite <- !app_assoc. simpl.
  rewrite Hdisp, Hupd. reflexivity.
Qed.

(** A pass returns exactly when it can be told call by call. *)
Lemma for_blocks_calls (use : Strategy) (env : Env) (blocks : list Block) :
  forall (p : list string) (i : nat) (bs' : list Block) (w w' : World),
    for_blocks ast_parse py_exec visit use env p i blocks w = Ok (bs', w')
    <-> exists cs,
          pass_calls ast_parse py_exec visit use env p i blocks w bs' w' cs.
Proof.
  induction blocks as [|block rest IH]; intros p i bs' w w'; split.
  - simpl. intros H. apply ret_ok in H as [-> ->]. exists []. constructor.
  - intros [cs H]. inversion H; subst. reflexivity.
  - simpl. intros H. apply bind_ok in H as [[b1 p1] [w1 [Hblock H]]].
    apply bind_ok in H as [rest' [w2 [Hrest H]]].
    apply ret_ok in H as [-> ->]. simpl in Hrest.
    apply process_block_inv in Hblock
      as [t [u [v [Hparse [Hpy [Hget [Hdisp Hupd]]]]]]].
    apply IH in Hrest as [cs Hcs].
    exists (mkCall i t v p :: cs).
    now apply pass_block with (p1 := p1) (w1 := w1) (u := u).
  - intros [cs H]. inversion H as [|? p1 ? ? b1 ? rest' ? w1 ? t u v cs'
                                     Hparse Hpy Hget Hdisp Hupd Hrest]; subst.
    simpl. unfold bind.
    rewrite (process_block_steps use env p p1 i block b1 w w1 t u v
               Hparse Hpy Hget Hdisp Hupd).
    simpl.
    assert (for_blocks ast_parse py_exec visit use env p1 (S i) rest w1
            = Ok (rest', w')) as ->.
    { apply IH. now exists cs'. }
    reflexivity.
Qed.

(** A run returns exactly when it can be told pass by pass. *)
Lemma for_uses_calls (members : list Strategy) (env : Env) :
  forall (blocks bs' : list Block) (w w' : World),
    for_uses ast_parse py_exec visit members env blocks w = Ok (bs', w')
    <-> exists passes,
          run_calls ast_parse py_exec visit env members blocks w bs' w'
                    passes.
Proof.
  induction members as [|use rest IH]; intros blocks bs' w w'; split.
  - simpl. intros H. apply ret_ok in H as [-> ->]. exists []. constructor.
  - intros [passes H]. inversion H; subst. reflexivity.
  - simpl. intros H. apply bind_ok in H as [bs1 [w1 [Hpass H]]].
    apply for_blocks_calls in Hpass as [cs Hcs].
    apply IH in H as [passes Hpasses].
    exists (cs :: passes). now apply run_pass with (bs1 := bs1) (w1 := w1).
  - intros [passes H].
    inversion H as [|? ? ? bs1 ? ? w1 ? cs passes' Hcs Hrest]; subst.
    simpl. unfold bind.
    assert (for_blocks ast_parse py_exec visit use env [] 0 blocks w
            = Ok (bs1, w1)) as ->.
    { apply for_blocks_calls. now exists cs. }
    apply IH. now exists passes'.
Qed.

(** The calls of a pass are one for each block, in the order of the
    blocks, each on the tree the code of its block parses to; the pass
    leaves the code of the blocks as it was. *)
Lemma pass_calls_blocks (use : Strategy) (env : Env)
  (p : list string) (i : nat) (blocks bs' : list Block) (w w' : World)
  (cs : list Call) :
  pass_calls ast_parse py_exec visit use env p i blocks w bs' w' cs ->
  map call_block cs = seq i (List.length blocks)
  /\ Forall2 (fun block c => ast_parse (code block) = Ok (call_tree c))
             blocks cs
  /\ map code bs' = map code blocks.
Proof.
  induction 1 as [|p p1 i block b1 rest rest' w w1 w' t u v cs
                   Hparse Hpy Hget Hdisp Hupd Hrest [IH1 [IH2 IH3]]].
  - repeat split; constructor.
  - apply records_to_nodes_keeps_code in Hdisp as [Hcode _].
    simpl. rewrite IH1, IH3, Hcode. repeat split.
    constructor; assumption.
Qed.

(** A pass runs the code of the blocks, in order, on the state of its
    recorder, and leaves the other recorders alone. *)
Lemma pass_calls_recorder (use : Strategy) (env : Env)
  (p : list string) (i : nat) (blocks bs' : list Block) (w w' : World)
  (cs : list Call) :
  pass_calls ast_parse py_exec visit use env p i blocks w bs' w' cs ->
  run_blocks ast_parse py_exec use blocks (use_of use (uses w))
  = Ok (use_of use (uses w'))
  /\ forall s, s <> use -> use_of s (uses w') = use_of s (uses w).
Proof.
  induction 1 as [|p p1 i block b1 rest rest' w w1 w' t u v cs
                   Hparse Hpy Hget Hdisp Hupd Hrest [IH1 IH2]].
  - split; reflexivity.
  - apply records_to_nodes_only_renders in Hdisp as [evs [_ [_ Hu]]].
    simpl in Hu. rewrite Hu in IH1, IH2. split.
    + simpl. rewrite Hparse. simpl. rewrite Hpy. simpl.
      now rewrite use_of_set_use in IH1.
    + intros s Hs. rewrite (IH2 s Hs). now apply use_of_set_use_other.
Qed.

(** In a pass every call carries the names processed so far and receives
    no record with such a name. *)
Lemma pass_calls_skip_processed (use : Strategy) (env : Env)
  (p : list string) (i : nat) (blocks bs' : list Block) (w w' : World)
  (cs : list Call) :
  exec_keeps_keys py_exec ->
  pass_calls ast_parse py_exec visit use env p i blocks w bs' w' cs ->
  all_keyed (uses w) ->
  skips_processed p cs /\ all_keyed (uses w').
Proof.
  intros Hkeys.
  induction 1 as [|p p1 i block b1 rest rest' w w1 w' t u v cs
                   Hparse Hpy Hget Hdisp Hupd Hrest IH]; intros Hall.
  - split; [exact I | exact Hall].
  - assert (keyed_by_ref (_get_records u)) as Hkeyed.
    { apply (Hkeys t use (use_of use (uses w)) u); [apply Hall | exact Hpy]. }
    apply records_to_nodes_only_renders in Hdisp as [evs [_ [_ Hu]]].
    simpl in Hu.
    apply update_processed_records_names in Hupd. subst p1.
    destruct IH as [IHc IHk].
    { rewrite Hu. now apply all_keyed_set_use. }
    split; [|exact IHk]. simpl. split; [reflexivity|]. split; [|exact IHc].
    intros r Hr Hin.
    destruct (get_new_records_fresh u p v Hget r Hr) as [k [Hk Hnot]].
    unfold keyed_by_ref in Hkeyed. rewrite Forall_forall in Hkeyed.
    specialize (Hkeyed (k, r) Hk). simpl in Hkeyed. now subst k.
Qed.

Lemma pass_calls_length (use : Strategy) (env : Env)
  (p : list string) (i : nat) (blocks bs' : list Block) (w w' : World)
  (cs : list Call) :
  pass_calls ast_parse py_exec visit use env p i blocks w bs' w' cs ->
  List.length cs = List.length blocks.
Proof.
  intros H. apply pass_calls_blocks in H as [H _].
  apply (f_equal (@List.length nat)) in H.
  now rewrite length_map, length_seq in H.
Qed.

Lemma run_calls_skip_processed (members : list Strategy) (env : Env)
  (blocks bs' : list Block) (w w' : World) (passes : list (list Call)) :
  exec_keeps_keys py_exec ->
  run_calls ast_parse py_exec visit env members blocks w bs' w' passes ->
  all_keyed (uses w) ->
  Forall (fun cs => List.length cs = List.length blocks
                    /\ skips_processed [] cs
                    /\ no_name_twice cs) passes.
Proof.
  intros Hkeys.
  induction 1 as [|use rest blocks bs1 bs' w w1 w' cs passes Hcs Hrest IH];
    intros Hall; [constructor|].
  pose proof (pass_calls_length _ _ _ _ _ _ _ _ _ Hcs) as Hlen.
  pose proof (pass_calls_blocks _ _ _ _ _ _ _ _ _ Hcs) as [_ [_ Hcodes]].
  destruct (pass_calls_skip_processed _ _ _ _ _ _ _ _ _ Hkeys Hcs Hall)
    as [Hskip Hall1].
  constructor.
  - split; [exact Hlen|]. split; [exact Hskip|].
    now apply skips_processed_no_name_twice with (p := []).
  - assert (List.length bs1 = List.length blocks) as Hbs.
    { apply (f_equal (@List.length string)) in Hcodes.
      now rewrite !length_map in Hcodes. }
    specialize (IH Hall1). rewrite Hbs in IH. exact IH.
Qed.

(** C2. A completed run is made of one pass for each recorder, and each
    pass of one call of the record dispatcher for each block.  Every pass
    starts with no processed name.  The call for a block carries exactly
    the names of the records handed to the handler for the earlier blocks
    of that pass, and the records it hands to the handler are records of
    the recorder whose names are not among them; their names are added for
    the blocks that follow.  So within a pass no two calls hand over a
    record of the same name: a record dispatched for one block is not
    dispatched again for a later block of that pass. *)
Theorem handlers_receive_unprocessed_records_only
  (members : list Strategy) (env : Env) (blocks bs' : list Block)
  (w w' : World) :
  exec_keeps_keys py_exec ->
  all_keyed (uses w) ->
  for_uses ast_parse py_exec visit members env blocks w = Ok (bs', w') ->
  exists passes,
    run_calls ast_parse py_exec visit env members blocks w bs' w' passes
    /\ Forall (fun cs => List.length cs = List.length blocks
                         /\ skips_processed [] cs
                         /\ no_name_twice cs) passes.
Proof.
  intros Hkeys Hall H.
  apply for_uses_calls in H as [passes Hpasses].
  exists passes. split; [exact Hpasses|].
  exact (run_calls_skip_processed _ _ _ _ _ _ _ Hkeys Hpasses Hall).
Qed.

Lemma run_blocks_codes (use : Strategy) (a b : list Block) :
  map code a = map code b ->
  forall u, run_blocks ast_parse py_exec use a u
            = run_blocks ast_parse py_exec use b u.
Proof.
  revert b. induction a as [|x a IH]; intros [|y b] H u;
    try discriminate; [reflexivity|].
  simpl in H. injection H as Hxy Hab. simpl. rewrite Hxy.
  destruct (ast_parse (code y)) as [t|e]; simpl; [|reflexivity].
  destruct (py_exec t use u) as [u'|e]; simpl; [|reflexivity].
  now apply IH.
Qed.

Lemma Forall2_codes (a b : list Block) (cs : list Call) :
  map code a = map code b ->
  Forall2 (fun block c => ast_parse (code block) = Ok (call_tree c)) a cs ->
  Forall2 (fun block c => ast_parse (code block) = Ok (call_tree c)) b cs.
Proof.
  intros Hab H. revert b Hab.
  induction H as [|x c a cs Hx H IH]; intros [|y b] Hab; try discriminate.
  - constructor.
  - simpl in Hab. injection Hab as Hxy Hab.
    constructor; [now rewrite <- Hxy | now apply IH].
Qed.

(** A run applies the code of the blocks once, in order, to the state of
    each of its recorders. *)
Lemma run_calls_recorders (members : list Strategy) (env : Env)
  (blocks bs' : list Block) (w w' : World) (passes : list (list Call)) :
  run_calls ast_parse py_exec visit env members blocks w bs' w' passes ->
  NoDup members ->
  (forall use, In use members ->
               run_blocks ast_parse py_exec use blocks (use_of use (uses w))
               = Ok (use_of use (uses w')))
  /\ (forall s, ~ In s members -> use_of s (uses w') = use_of s (uses w))
  /\ map code bs' = map code blocks
  /\ Forall2 (fun use cs =>
                map call_block cs = seq 0 (List.length blocks)
                /\ Forall2 (fun block c =>
                              ast_parse (code block) = Ok (call_tree c))
                           blocks cs)
             members passes.
Proof.
  induction 1 as [|use rest blocks bs1 bs' w w1 w' cs passes Hcs Hrest IH];
    intros Hnd.
  - split; [intros use []|]. split; [reflexivity|]. split; constructor.
  - inversion Hnd as [|? ? Hnot Hnd']; subst.
    destruct (IH Hnd') as [IHrun [IHother [IHcodes IHcalls]]].
    destruct (pass_calls_recorder _ _ _ _ _ _ _ _ _ Hcs) as [Hrun Hother].
    destruct (pass_calls_blocks _ _ _ _ _ _ _ _ _ Hcs)
      as [Hidx [Htrees Hcodes]].
    assert (List.length bs1 = List.length blocks) as Hbs.
    { apply (f_equal (@List.length string)) in Hcodes.
      now rewrite !length_map in Hcodes. }
    split; [|split; [|split]].
    + intros s [<-|Hs].
      * now rewrite (IHother use Hnot).
      * assert (s <> use) as Hne by (intros ->; contradiction).
        rewrite <- (Hother s Hne),
          <- (run_blocks_codes s bs1 blocks Hcodes).
        now apply IHrun.
    + intros s Hs.
      assert (s <> use) as Hne by (intros ->; apply Hs; now left).
      rewrite IHother; [now apply Hother|].
      intros Hin. apply Hs. now right.
    + congruence.
    + constructor; [now split|].
      rewrite Hbs in IHcalls.
      revert IHcalls. apply Forall2_impl.
      intros s cs' [Hi Ht]. split; [exact Hi|].
      now apply (Forall2_codes bs1 blocks).
Qed.

Lemma MetaUsage_NoDup : NoDup MetaUsage.
Proof.
  unfold MetaUsage. repeat constructor; simpl; intuition discriminate.
Qed.

(** C7. A completed run of process_usage_blocks is made of four passes,
    one for each recorder in the order diagnostic, command line, artifact
    API, execution; each pass takes the blocks in their order and makes,
    for each block, one call on the tree the code of the block parses to.
    For each recorder the state at the end of the run is the state at its
    start to which the code of every block has been applied once, in the
    order of the blocks.  The node update is made once, on the blocks and
    the state that the last pass leaves. *)
Theorem every_block_is_run_once_per_recorder (env : Env) (doctree : Forest)
  (blocks bs : list Block) (d' : Forest) (w w' : World) :
  process_usage_blocks ast_parse py_exec visit env doctree blocks w
  = Ok ((bs, d'), w') ->
  exists passes w1,
    run_calls ast_parse py_exec visit env MetaUsage blocks
              (mkWorld (srcdir env) (uses w) (dirs w) (files w) (calls w))
              bs w1 passes
    /\ Forall2 (fun use cs =>
                  map call_block cs = seq 0 (List.length blocks)
                  /\ Forall2 (fun block c =>
                                ast_parse (code block) = Ok (call_tree c))
                             blocks cs)
               MetaUsage passes
    /\ (forall use,
           In use MetaUsage ->
           run_blocks ast_parse py_exec use blocks (use_of use (uses w))
           = Ok (use_of use (uses w')))
    /\ update_nodes doctree bs (at_update w1) = Ok (d', w')
    /\ w' = at_update w1.
Proof.
  intros H. unfold process_usage_blocks in H.
  apply bind_ok in H as [u [w0 [Hcd H]]].
  unfold chdir in Hcd. injection Hcd as _ <-.
  apply bind_ok in H as [bs0 [w1 [Hrun H]]].
  apply bind_ok in H as [u' [w2 [Hlog H]]].
  unfold log in Hlog. injection Hlog as _ <-.
  apply bind_ok in H as [d [w3 [Hupd H]]]. apply ret_ok in H as [H ->].
  injection H as -> ->.
  assert (w3 = at_update w1) as Hw'.
  { unfold update_nodes in Hupd.
    match type of Hupd with
    | match ?x with _ => _ end = _ => destruct x; [|discriminate]
    end.
    now injection Hupd as _ <-. }
  apply for_uses_calls in Hrun as [passes Hpasses].
  destruct (run_calls_recorders _ _ _ _ _ _ _ Hpasses MetaUsage_NoDup)
    as [Hstate [_ [_ Hcalls]]].
  exists passes, w1.
  split; [exact Hpasses|]. split; [exact Hcalls|].
  split; [|split; [exact Hupd | exact Hw']].
  intros use Huse. rewrite Hw'. exact (Hstate use Huse).
Qed.

End Run.

(** ** The sample run *)

Lemma dict_set_keyed (r : ScopeRecord) (d : Dict) :
  keyed_by_ref d -> keyed_by_ref (Sample.dict_set (ref r) r d).
Proof.
  unfold keyed_by_ref. induction d as [|[k r'] d IH]; simpl; intros H.
  - constructor; [reflexivity | constructor].
  - inversion H as [|? ? Hk Hd]; subst.
    destruct (ref r =? k)%string.
    + constructor; [reflexivity | exact Hd].
    + constructor; [exact Hk | now apply IH].
Qed.

Lemma sample_exec_keeps_keys : exec_keeps_keys Sample.py_exec.
Proof.
  intros [text] s u u' Hu. unfold Sample.py_exec.
  destruct (text =? "load")%string.
  { intros H. injection H as <-.
    apply (dict_set_keyed Sample.md), (dict_set_keyed Sample.table), Hu. }
  destruct (text =? "merge")%string.
  { intros H. injection H as <-.
    apply (dict_set_keyed Sample.column), (dict_set_keyed Sample.merged), Hu. }
  destruct (text =? "pass")%string; [|discriminate].
  intros H. now injection H as <-.
Qed.

Lemma sample_world_keyed : all_keyed (uses Sample.world).
Proof. intros []; constructor. Qed.

Lemma handlers_receive_unprocessed_records_only_witness :
  exists passes,
    run_calls Sample.ast_parse Sample.py_exec Sample.visit Sample.env
              MetaUsage SampleRun.blocks Sample.world
              (fst SampleRun.after_passes) (snd SampleRun.after_passes)
              passes
    /\ Forall (fun cs => List.length cs = List.length SampleRun.blocks
                         /\ skips_processed [] cs
                         /\ no_name_twice cs) passes.
Proof.
  apply (handlers_receive_unprocessed_records_only
           Sample.ast_parse Sample.py_exec Sample.visit MetaUsage Sample.env
           SampleRun.blocks (fst SampleRun.after_passes) Sample.world
           (snd SampleRun.after_passes)
           sample_exec_keeps_keys sample_world_keyed).
  vm_compute. reflexivity.
Defined.

(** The two blocks of the sample merge the same metadata.  Under the
    execution recorder the handler receives both records with the first
    block and no record with the second. *)
Example second_block_receives_no_record :
  pass_calls Sample.ast_parse Sample.py_exec Sample.visit ExecutionUsage
             Sample.env [] 0
             (fst SampleRun.before_execution) (snd SampleRun.before_execution)
             (fst SampleRun.after_passes) (snd SampleRun.after_passes)
             [mkCall 0 (Module "merge")
                (RTuple [Sample.merged; Sample.column]) [];
              mkCall 1 (Module "merge") (RTuple []) ["merged"; "column"]].
Proof.
  eapply pass_block;
    [reflexivity | reflexivity | reflexivity | vm_compute; reflexivity
     | reflexivity |].
  eapply pass_block;
    [reflexivity | reflexivity | reflexivity | vm_compute; reflexivity
     | reflexivity |].
  apply pass_done.
Qed.

(** So each of the two records is saved once in the run. *)
Example second_block_saves_nothing :
  files (snd SampleRun.after_passes)
  = [("/srv/build/tutorial/results/merged.qza", Metadata "id  ph  depth");
     ("/srv/build/tutorial/results/column.qza", Metadata "id  depth")].
Proof. reflexivity. Qed.

Lemma every_block_is_run_once_per_recorder_witness :
  exists passes w1,
    run_calls Sample.ast_parse Sample.py_exec Sample.visit Sample.env
              MetaUsage SampleRun.blocks
              (mkWorld (srcdir Sample.env) (uses Sample.world)
                       (dirs Sample.world) (files Sample.world)
                       (calls Sample.world))
              (fst (fst SampleRun.after_run)) w1 passes
    /\ Forall2 (fun use cs =>
                  map call_block cs = seq 0 (List.length SampleRun.blocks)
                  /\ Forall2 (fun block c =>
                                Sample.ast_parse (code block)
                                = Ok (call_tree c))
                             SampleRun.blocks cs)
               MetaUsage passes
    /\ (forall use,
           In use MetaUsage ->
           run_blocks Sample.ast_parse Sample.py_exec use SampleRun.blocks
                      (use_of use (uses Sample.world))
           = Ok (use_of use (uses (snd SampleRun.after_run))))
    /\ update_nodes Sample.doctree (fst (fst SampleRun.after_run))
                    (at_update w1)
       = Ok (snd (fst SampleRun.after_run), snd SampleRun.after_run)
    /\ snd SampleRun.after_run = at_update w1.
Proof.
  apply (every_block_is_run_once_per_recorder
           Sample.ast_parse Sample.py_exec Sample.visit Sample.env
           Sample.doctree SampleRun.blocks (fst (fst SampleRun.after_run))
           (snd (fst SampleRun.after_run)) Sample.world
           (snd SampleRun.after_run)).
  vm_compute. reflexivity.
Defined.

(** The state of the execution recorder at the end of the sample run: the
    merging code of the two blocks has been applied to the empty scope. *)
Example sample_run_execution_recorder :
  run_blocks Sample.ast_parse Sample.py_exec ExecutionUsage SampleRun.blocks
             Sample.fresh
  = Ok (execution_value (uses (snd SampleRun.after_run)))
  /\ dict_keys (_get_records (execution_value (uses (snd SampleRun.after_run))))
     = ["merged"; "column"].
Proof. split; reflexivity. Qed.

(** A block whose code raises aborts the run. *)
Example failing_block_aborts_the_run :
  process_usage_blocks Sample.ast_parse Sample.py_exec Sample.visit
                       Sample.env Sample.doctree
                       [Sample.block "merge" "first" false;
                        Sample.block "raise" "second" false]
                       Sample.world
  = Err ExecError.
Proof. reflexivity. Qed.

(** ** The node update *)

Scheme DocTree_forest_ind := Induction for DocTree Sort Prop
  with Forest_tree_ind := Induction for Forest Sort Prop.

Lemma all_nodes_fapp (f g : Forest) :
  all_nodes (fapp f g) = all_nodes f ++ all_nodes g.
Proof.
  induction f as [|t f IH]; [reflexivity|]. simpl.
  destruct t; simpl; rewrite IH; [reflexivity | now rewrite app_assoc].
Qed.

Lemma all_nodes_leaves_of (ns : list Node) : all_nodes (leaves_of ns) = ns.
Proof. induction ns as [|n ns IH]; simpl; congruence. Qed.

Lemma replaced_app (a b : list Node) :
  forall pending,
    replaced pending (a ++ b)
    = (fst (replaced pending a) ++ fst (replaced (snd (replaced pending a)) b),
       snd (replaced (snd (replaced pending a)) b)).
Proof.
  induction a as [|n a IH]; intros pending; simpl.
  - now destruct (replaced pending b).
  - destruct (is_usage_node n).
    + destruct pending as [|new pending].
      * rewrite IH. destruct (replaced [] a). reflexivity.
      * rewrite IH. destruct (replaced pending a). simpl.
        now rewrite app_assoc.
    + rewrite IH. destruct (replaced pending a). reflexivity.
Qed.

Lemma replace_placeholders_nodes :
  forall (f : Forest) pending,
    all_nodes (fst (replace_placeholders pending f))
    = fst (replaced pending (all_nodes f))
    /\ snd (replace_placeholders pending f)
       = snd (replaced pending (all_nodes f)).
Proof.
  apply (Forest_tree_ind
    (fun t => forall rest,
            (forall pending,
                all_nodes (fst (replace_placeholders pending rest))
                = fst (replaced pending (all_nodes rest))
                /\ snd (replace_placeholders pending rest)
                   = snd (replaced pending (all_nodes rest))) ->
            forall pending,
              all_nodes (fst (replace_placeholders pending (FCons t rest)))
              = fst (replaced pending (all_nodes (FCons t rest)))
              /\ snd (replace_placeholders pending (FCons t rest))
                 = snd (replaced pending (all_nodes (FCons t rest))))
    (fun f => forall pending,
       all_nodes (fst (replace_placeholders pending f))
       = fst (replaced pending (all_nodes f))
       /\ snd (replace_placeholders pending f)
          = snd (replaced pending (all_nodes f)))).
  - intros n rest Hrest pending. simpl.
    destruct (is_usage_node n).
    + destruct pending as [|new pending].
      * destruct (Hrest []) as [H1 H2].
        destruct (replace_placeholders [] rest) as [rest' p].
        destruct (replaced [] (all_nodes rest)) as [r q]. simpl in *.
        split; congruence.
      * destruct (Hrest pending) as [H1 H2].
        destruct (replace_placeholders pending rest) as [rest' p].
        destruct (replaced pending (all_nodes rest)) as [r q]. simpl in *.
        rewrite all_nodes_fapp, all_nodes_leaves_of. split; congruence.
    + destruct (Hrest pending) as [H1 H2].
      destruct (replace_placeholders pending rest) as [rest' p].
      destruct (replaced pending (all_nodes rest)) as [r q]. simpl in *.
      split; congruence.
  - intros tag kids IHkids rest Hrest pending. simpl.
    destruct (IHkids pending) as [H1 H2].
    destruct (replace_placeholders pending kids) as [kids' p].
    simpl in H1, H2.
    destruct (Hrest p) as [H3 H4].
    destruct (replace_placeholders p rest) as [rest' p']. simpl in H3, H4.
    rewrite replaced_app. simpl. rewrite H1, H3, H4, H2. split; reflexivity.
  - intros pending. split; reflexivity.
  - intros t IHt f IHf pending. now apply IHt.
Qed.

Lemma attach_list_app (execs : Dict) (a b : list Node) :
  forall pairs,
    attach_list execs pairs (a ++ b)
    = res_bind (attach_list execs pairs a) (fun ra =>
      res_bind (attach_list execs (snd ra) b) (fun rb =>
      Ok (fst ra ++ fst rb, snd rb))).
Proof.
  induction a as [|n a IH]; intros pairs; simpl.
  - destruct (attach_list execs pairs b) as [[r k]|e]; reflexivity.
  - destruct (is_factory_node n), pairs as [|pairs'];
      try (rewrite IH; destruct (attach_list execs _ a) as [[ra ka]|e];
           simpl; [|reflexivity];
           destruct (attach_list execs ka b) as [[rb kb]|e]; reflexivity).
    destruct (preview_node execs n) as [n'|e]; simpl; [|reflexivity].
    rewrite IH. destruct (attach_list execs pairs' a) as [[ra ka]|e];
      simpl; [|reflexivity].
    destruct (attach_list execs ka b) as [[rb kb]|e]; reflexivity.
Qed.

Lemma attach_previews_nodes (execs : Dict) :
  forall (f : Forest) pairs,
    attach_list execs pairs (all_nodes f)
    = res_bind (attach_previews execs pairs f) (fun r =>
      Ok (all_nodes (fst r), snd r)).
Proof.
  apply (Forest_tree_ind
    (fun t => forall rest,
       (forall pairs,
           attach_list execs pairs (all_nodes rest)
           = res_bind (attach_previews execs pairs rest) (fun r =>
             Ok (all_nodes (fst r), snd r))) ->
       forall pairs,
         attach_list execs pairs (all_nodes (FCons t rest))
         = res_bind (attach_previews execs pairs (FCons t rest)) (fun r =>
           Ok (all_nodes (fst r), snd r)))
    (fun f => forall pairs,
       attach_list execs pairs (all_nodes f)
       = res_bind (attach_previews execs pairs f) (fun r =>
         Ok (all_nodes (fst r), snd r)))).
  - intros n rest Hrest pairs. simpl.
    destruct (is_factory_node n), pairs as [|pairs'];
      try (rewrite Hrest;
           destruct (attach_previews execs _ rest) as [[r k]|e]; reflexivity).
    destruct (preview_node execs n) as [n'|e]; simpl; [|reflexivity].
    rewrite Hrest.
    destruct (attach_previews execs pairs' rest) as [[r k]|e]; reflexivity.
  - intros tag kids IHkids rest Hrest pairs. simpl.
    rewrite attach_list_app, IHkids.
    destruct (attach_previews execs pairs kids) as [[rk kk]|e];
      simpl; [|reflexivity].
    rewrite Hrest.
    destruct (attach_previews execs kk rest) as [[r k]|e]; reflexivity.
  - intros pairs. reflexivity.
  - intros t IHt f IHf pairs. now apply IHt.
Qed.

Lemma preview_node_is_factory (execs : Dict) (n n' : Node) :
  preview_node execs n = Ok n' -> is_factory_node n' = true.
Proof.
  destruct n; simpl; try discriminate.
  destruct (dict_get ref0 execs) as [rec|e]; simpl; [|discriminate].
  destruct (result rec); simpl; intros H; injection H as <-; reflexivity.
Qed.

(** What the second loop does to one factory node: nothing but setting the
    preview, and that exactly when the record is a metadata value. *)
Lemma preview_node_metadata (execs : Dict)
  (ru au sa r : string) (pv : option string) (n' : Node) :
  preview_node execs (FactoryNode ru au sa r pv) = Ok n'
  <-> exists rec,
        dict_get r execs = Ok rec
        /\ n' = match result rec with
                | Metadata df => FactoryNode ru au sa r (Some df)
                | Artifact _ => FactoryNode ru au sa r pv
                end.
Proof.
  simpl. destruct (dict_get r execs) as [rec|e]; simpl.
  - destruct (result rec) eqn:Hres; simpl; split.
    + intros H. injection H as <-. exists rec. rewrite Hres. now split.
    + intros [rec' [Hrec ->]]. injection Hrec as <-. now rewrite Hres.
    + intros H. injection H as <-. exists rec. rewrite Hres. now split.
    + intros [rec' [Hrec ->]]. injection Hrec as <-. now rewrite Hres.
  - split; [discriminate | intros [rec [H _]]; discriminate].
Qed.

Arguments is_other_node : simpl never.

Lemma attach_list_spec (execs : Dict) (ns : list Node) :
  forall pairs,
    match res_map (preview_node execs)
                  (firstn pairs (filter is_factory_node ns)) with
    | Ok previewed =>
        exists ns' k,
          attach_list execs pairs ns = Ok (ns', k)
          /\ filter is_factory_node ns'
             = previewed ++ skipn pairs (filter is_factory_node ns)
          /\ filter is_other_node ns' = filter is_other_node ns
          /\ map is_factory_node ns' = map is_factory_node ns
    | Err e => attach_list execs pairs ns = Err e
    end.
Proof.
  assert (forall m, is_other_node m = negb (is_factory_node m)) as Hon
    by reflexivity.
  induction ns as [|n ns IH]; intros pairs.
  - simpl. rewrite firstn_nil. simpl. exists [], pairs.
    rewrite skipn_nil. repeat split.
  - simpl. rewrite Hon.
    destruct (is_factory_node n) eqn:Hn; simpl.
    + destruct pairs as [|pairs']; simpl.
      * specialize (IH 0). simpl in IH.
        destruct IH as [ns' [k [Ha [Hf [Ho Hm]]]]].
        rewrite Ha. simpl. exists (n :: ns'), k. simpl.
        rewrite Hon, Hn. simpl. repeat split; congruence.
      * destruct (preview_node execs n) as [n'|e] eqn:Hp; simpl;
          [|reflexivity].
        specialize (IH pairs').
        destruct (res_map (preview_node execs)
                    (firstn pairs' (filter is_factory_node ns)))
          as [previewed|e]; simpl.
        -- destruct IH as [ns' [k [Ha [Hf [Ho Hm]]]]].
           rewrite Ha. simpl. exists (n' :: ns'), k. simpl.
           pose proof (preview_node_is_factory execs n n' Hp) as Hn'.
           rewrite Hon, Hn'. simpl. repeat split; congruence.
        -- now rewrite IH.
    + specialize (IH pairs).
      destruct (res_map (preview_node execs)
                  (firstn pairs (filter is_factory_node ns)))
        as [previewed|e]; simpl.
      * destruct IH as [ns' [k [Ha [Hf [Ho Hm]]]]].
        exists (n :: ns'), k.
        assert (attach_list execs pairs (n :: ns) = Ok (n :: ns', k)) as Hatt.
        { simpl. rewrite Hn, Ha. now destruct pairs. }
        simpl in Hatt. rewrite Hn in Hatt.
        split; [exact Hatt|]. simpl. rewrite Hon, Hn. simpl.
        repeat split; congruence.
      * destruct pairs; now rewrite IH.
Qed.

(** The node update, told on the nodes of the document: it raises when one
    of the factory nodes it visits has no execution record, and otherwise
    returns a document that differs from the one left by the first loop
    only in the factory nodes visited. *)
Lemma update_nodes_on_nodes (doctree : Forest) (bs : list Block) (w : World) :
  let placed := fst (replaced (map nodes bs) (all_nodes doctree)) in
  let factories := filter is_factory_node placed in
  match res_map (preview_node (_get_records (execution_value (uses w))))
                (firstn (List.length bs) factories) with
  | Ok previewed =>
      exists d',
        update_nodes doctree bs w = Ok (d', w)
        /\ traverse is_factory_node d'
           = previewed ++ skipn (List.length bs) factories
        /\ traverse is_other_node d' = filter is_other_node placed
        /\ map is_factory_node (all_nodes d') = map is_factory_node placed
  | Err e => update_nodes doctree bs w = Err e
  end.
Proof.
  intros placed factories. subst factories.
  pose proof (attach_list_spec (_get_records (execution_value (uses w)))
                placed (List.length bs)) as Hspec.
  unfold update_nodes.
  destruct (replace_placeholders_nodes doctree (map nodes bs)) as [Hplaced _].
  fold placed in Hplaced.
  pose proof (attach_previews_nodes (_get_records (execution_value (uses w)))
                (fst (replace_placeholders (map nodes bs) doctree))
                (List.length bs)) as Hnodes.
  rewrite Hplaced in Hnodes.
  destruct (res_map (preview_node (_get_records (execution_value (uses w))))
              (firstn (List.length bs) (filter is_factory_node placed)))
    as [previewed|e].
  - destruct Hspec as [ns' [k [Ha [Hf [Ho Hm]]]]]. rewrite Ha in Hnodes.
    destruct (attach_previews (_get_records (execution_value (uses w)))
                (List.length bs)
                (fst (replace_placeholders (map nodes bs) doctree)))
      as [[d' k']|e]; simpl in Hnodes; [|discriminate].
    injection Hnodes as -> ->. exists d'. simpl. unfold traverse.
    repeat split; assumption.
  - rewrite Hspec in Hnodes.
    destruct (attach_previews (_get_records (execution_value (uses w)))
                (List.length bs)
                (fst (replace_placeholders (map nodes bs) doctree)))
      as [[d' k']|e']; simpl in Hnodes; [discriminate|].
    now injection Hnodes as ->.
Qed.

(** A document with two placeholders: the first block brought an example
    and a metadata node, the second a factory node whose execution record
    is a metadata value. *)
Example update_nodes_attaches_metadata_preview :
  update_nodes Sample.doctree
    [mkBlock "load" None
       [UsageExampleNode ["Command Line"] [PyString "qiime tools"];
        UsageMetadataNode "md = qiime2.Metadata.load('md.qza')" "id  ph" "md"];
     mkBlock "load" None
       [FactoryNode "results/md.qza"
          "https://docs.example.org/tutorial/results/md.qza" "md.qza" "md"
          None]]
    Sample.loaded_world
  = Ok (FCons
          (Element "section"
             (FCons (Leaf (UsageExampleNode ["Command Line"]
                             [PyString "qiime tools"]))
                (FCons (Leaf (UsageMetadataNode
                                "md = qiime2.Metadata.load('md.qza')"
                                "id  ph" "md"))
                   (FCons (Element "paragraph" FNil)
                      (FCons (Leaf (FactoryNode "results/md.qza"
                                      "https://docs.example.org/tutorial/results/md.qza"
                                      "md.qza" "md" (Some "id  ph")))
                         FNil)))))
          FNil,
        Sample.loaded_world).
Proof. reflexivity. Qed.

(** *** Factory nodes in a run *)

Lemma usage_node_is_no_factory (n : Node) :
  is_usage_node n = true -> is_factory_node n = false.
Proof. destruct n; simpl; intros H; try discriminate; reflexivity. Qed.

Lemma factory_count_set_nodes_app (block : Block) (n : Node) :
  is_factory_node n = false ->
  factory_count (set_nodes block (nodes block ++ [n])) = factory_count block.
Proof.
  intros Hn. unfold factory_count. simpl. rewrite filter_app. simpl.
  rewrite Hn. now rewrite app_nil_r.
Qed.

Lemma cli_records_factories (use : Strategy) (rs : list ScopeRecord)
  (block block' : Block) (w w' : World) :
  cli_records use rs block w = Ok (block', w') ->
  factory_count block' <= factory_count block.
Proof.
  induction rs as [|r rs IH]; simpl.
  - intros H. apply ret_ok in H as [-> _]. lia.
  - destruct (source r =? "action")%string; [|exact IH].
    intros H. apply bind_ok in H as [v [w1 [Hr H]]].
    apply bind_ok in H as [ex [w2 [Hl H]]].
    apply ret_ok in H as [-> _]. unfold factory_count. simpl. lia.
Qed.

Lemma init_data_node_is_no_factory (r : ScopeRecord) (w w' : World)
  (n : Node) :
  init_data_node r w = Ok (n, w') -> is_factory_node n = false.
Proof.
  unfold init_data_node. intros H.
  apply bind_ok in H as [rec [w1 [_ H]]].
  apply bind_ok in H as [t [w2 [_ H]]].
  apply ret_ok in H as [-> _]. reflexivity.
Qed.

Lemma init_metadata_node_is_no_factory (r : ScopeRecord) (w w' : World)
  (n : Node) :
  init_metadata_node r w = Ok (n, w') -> is_factory_node n = false.
Proof.
  unfold init_metadata_node. intros H.
  apply bind_ok in H as [rec [w1 [_ H]]].
  apply bind_ok in H as [t [w2 [_ H]]].
  apply ret_ok in H as [-> _]. reflexivity.
Qed.

Lemma artifact_api_records_factories (use : Strategy)
  (rs : list ScopeRecord) :
  forall (block block' : Block) (w w' : World),
    artifact_api_records use rs block w = Ok (block', w') ->
    factory_count block' <= factory_count block.
Proof.
  induction rs as [|r rs IH]; simpl; intros block block' w w'.
  - intros H. apply ret_ok in H as [-> _]. lia.
  - destruct (source r =? "init_data")%string.
    { intros H. apply bind_ok in H as [n [w1 [Hn H]]].
      apply init_data_node_is_no_factory in Hn.
      apply IH in H. now rewrite factory_count_set_nodes_app in H. }
    destruct (source r =? "init_metadata")%string.
    { intros H. apply bind_ok in H as [n [w1 [Hn H]]].
      apply init_metadata_node_is_no_factory in Hn.
      apply IH in H. now rewrite factory_count_set_nodes_app in H. }
    destruct (source r =? "action")%string; [|apply IH].
    intros H. apply bind_ok in H as [n [w1 [Hn H]]].
    apply lift_ok in Hn as [Hn _].
    apply bind_ok in H as [v [w2 [_ H]]].
    apply bind_ok in H as [n' [w3 [Hl H]]].
    apply lift_ok in Hl as [Hl _]. apply ret_ok in H as [-> _].
    unfold factory_count. simpl.
    destruct (nodes block) as [|n0 ns]; [discriminate|].
    injection Hn as ->. destruct n; try discriminate.
    injection Hl as <-. simpl. lia.
Qed.

Lemma factories_to_nodes_factories (block block' : Block) (env : Env) :
  factories_to_nodes block env = Ok block' ->
  factory_count block' <= S (factory_count block).
Proof.
  unfold factories_to_nodes. intros H.
  destruct (pop (nodes block)) as [[node rest]|e] eqn:Hpop; [|discriminate].
  simpl in H.
  destruct (get_docname node) as [rd|e]; [|discriminate]. simpl in H.
  destruct (node_name node) as [nm|e]; [|discriminate]. simpl in H.
  injection H as <-. apply pop_inv in Hpop.
  unfold factory_count. simpl. rewrite Hpop, !filter_app, !length_app.
  simpl. destruct (is_factory_node node); simpl; lia.
Qed.

(** Only the execution handler makes a factory node, and one at most. *)
Lemma records_to_nodes_factories (visit : AST -> Res unit) (use : Strategy)
  (records : PyRecords) (block block' : Block) (env : Env) (w w' : World) :
  records_to_nodes visit use records block env w = Ok (block', w') ->
  factory_count block'
  <= match use with
     | ExecutionUsage => S (factory_count block)
     | _ => factory_count block
     end.
Proof.
  destruct use; simpl; intros H.
  - unfold diagnostic in H. destruct (tree block) as [t|]; [|discriminate].
    apply bind_ok in H as [u [w1 [_ H]]]. apply ret_ok in H as [-> _]. lia.
  - unfold cli in H. apply bind_ok in H as [rs [w1 [_ H]]].
    now apply cli_records_factories in H.
  - unfold artifact_api in H. apply bind_ok in H as [rs [w1 [_ H]]].
    now apply artifact_api_records_factories in H.
  - apply execution_ok_inv in H as [n [rd [fac [rs [_ [_ [_ [Hb _]]]]]]]].
    destruct fac; [now apply factories_to_nodes_factories with env|].
    subst block'. lia.
Qed.

(** The nodes put in the place of the placeholders bring at most one
    factory node for each block that holds at most one. *)
Lemma replaced_factories (ns : list Node) :
  forall pending,
    Forall (fun l => List.length (filter is_factory_node l) <= 1) pending ->
    List.length (filter is_factory_node (fst (replaced pending ns)))
    <= List.length (filter is_factory_node ns) + List.length pending.
Proof.
  induction ns as [|n ns IH]; intros pending Hp; simpl; [lia|].
  destruct (is_usage_node n) eqn:Hn.
  - rewrite (usage_node_is_no_factory n Hn).
    destruct pending as [|new pending].
    + specialize (IH [] Hp). destruct (replaced [] ns) as [r q]. simpl in *.
      rewrite (usage_node_is_no_factory n Hn). exact IH.
    + inversion Hp as [|? ? Hnew Hp']; subst. specialize (IH pending Hp').
      destruct (replaced pending ns) as [r q]. simpl in *.
      rewrite filter_app, length_app. lia.
  - specialize (IH pending Hp). destruct (replaced pending ns) as [r q].
    simpl in *. destruct (is_factory_node n); simpl; lia.
Qed.

Lemma res_map_previewed (execs : Dict) (l l' : list Node) :
  res_map (preview_node execs) l = Ok l' ->
  Forall2 (previewed_from execs) l l'.
Proof.
  revert l'. induction l as [|n l IH]; simpl; intros l' H.
  - injection H as <-. constructor.
  - destruct (preview_node execs n) as [n'|e] eqn:Hn; simpl in H;
      [|discriminate].
    destruct (res_map (preview_node execs) l) as [r|e]; simpl in H;
      [|discriminate].
    injection H as <-. constructor; [|now apply IH].
    destruct n; try discriminate Hn.
    apply preview_node_metadata in Hn as [rec [Hrec ->]].
    exists relative_url, absolute_url, saveas, ref0, preview, rec.
    split; [reflexivity|]. split; [exact Hrec|]. reflexivity.
Qed.

Section RunUpdate.

Variable ast_parse : string -> Res AST.
Variable py_exec : AST -> Strategy -> UseState -> Res UseState.
Variable visit : AST -> Res unit.

Lemma for_blocks_factories (use : Strategy) (env : Env) (n : nat)
  (blocks : list Block) :
  forall (p : list string) (i : nat) (bs' : list Block) (w w' : World),
    for_blocks ast_parse py_exec visit use env p i blocks w = Ok (bs', w') ->
    Forall (fun b => factory_count b <= n) blocks ->
    Forall (fun b => factory_count b
                     <= match use with
                        | ExecutionUsage => S n
                        | _ => n
                        end) bs'.
Proof.
  induction blocks as [|block rest IH]; intros p i bs' w w' H Hn.
  - simpl in H. apply ret_ok in H as [-> _]. constructor.
  - simpl in H. apply bind_ok in H as [[b1 p1] [w1 [Hblock H]]].
    apply bind_ok in H as [rest' [w2 [Hrest H]]].
    apply ret_ok in H as [-> _]. simpl in Hrest.
    inversion Hn as [|? ? Hb Hn']; subst.
    apply process_block_inv in Hblock as [t [u [v [_ [_ [_ [Hdisp _]]]]]]].
    apply records_to_nodes_factories in Hdisp.
    change (factory_count (set_tree block t)) with (factory_count block)
      in Hdisp.
    constructor; [|now apply IH in Hrest].
    simpl fst. destruct use; lia.
Qed.

(** When the four passes are over, a block that held no factory node
    holds one at most. *)
Lemma for_uses_factories (env : Env) (blocks bs : list Block)
  (w w' : World) :
  for_uses ast_parse py_exec visit MetaUsage env blocks w = Ok (bs, w') ->
  Forall (fun b => factory_count b = 0) blocks ->
  Forall (fun b => factory_count b <= 1) bs.
Proof.
  intros H H0.
  assert (Forall (fun b => factory_count b <= 0) blocks) as Hle.
  { revert H0. apply Forall_impl. intros b Hb. lia. }
  unfold MetaUsage in H. simpl in H.
  apply bind_ok in H as [bs1 [w1 [H1 H]]].
  apply bind_ok in H as [bs2 [w2 [H2 H]]].
  apply bind_ok in H as [bs3 [w3 [H3 H]]].
  apply bind_ok in H as [bs4 [w4 [H4 H]]].
  apply ret_ok in H as [-> _].
  apply (for_blocks_factories _ _ 0) in H1; [|exact Hle].
  apply (for_blocks_factories _ _ 0) in H2; [|exact H1].
  apply (for_blocks_factories _ _ 0) in H3; [|exact H2].
  apply (for_blocks_factories _ _ 0) in H4; [|exact H3].
  exact H4.
Qed.

(** C6. A run that starts from a document and from blocks without factory
    nodes, and that returns.  After the four recorders have processed all
    blocks the node update is made once, on the blocks and the state that
    the passes leave.  It puts the nodes of the k-th block in the place of
    the k-th placeholder of the document.  Every block holds at most one
    factory node by then, so the factory nodes of the document are no more
    than the blocks and every one of them is visited: each is looked up
    in the execution recorder by its reference name, and it gets the
    dataframe of its record as preview when and only when the result of
    that record is a metadata value.  The other nodes stay as they are. *)
Theorem update_nodes_previews_every_factory_node (env : Env)
  (doctree : Forest) (blocks bs : list Block) (d' : Forest) (w w' : World) :
  traverse is_factory_node doctree = [] ->
  Forall (fun b => factory_count b = 0) blocks ->
  process_usage_blocks ast_parse py_exec visit env doctree blocks w
  = Ok ((bs, d'), w') ->
  exists w1,
    for_uses ast_parse py_exec visit MetaUsage env blocks
             (mkWorld (srcdir env) (uses w) (dirs w) (files w) (calls w))
    = Ok (bs, w1)
    /\ update_nodes doctree bs (at_update w1) = Ok (d', w')
    /\ w' = at_update w1
    /\ Forall (fun b => factory_count b <= 1) bs
    /\ let placed := fst (replaced (map nodes bs) (all_nodes doctree)) in
       Forall2 (previewed_from (_get_records (execution_value (uses w'))))
               (filter is_factory_node placed)
               (traverse is_factory_node d')
       /\ traverse is_other_node d' = filter is_other_node placed
       /\ map is_factory_node (all_nodes d') = map is_factory_node placed.
Proof.
  intros Hdoc Hblocks H. unfold process_usage_blocks in H.
  apply bind_ok in H as [u [w0 [Hcd H]]].
  unfold chdir in Hcd. injection Hcd as _ <-.
  apply bind_ok in H as [bs0 [w1 [Hrun H]]].
  apply bind_ok in H as [u' [w2 [Hlog H]]].
  unfold log in Hlog. injection Hlog as _ <-.
  apply bind_ok in H as [d [w3 [Hupd H]]]. apply ret_ok in H as [H ->].
  injection H as -> ->.
  assert (w3 = at_update w1) as Hw'.
  { unfold update_nodes in Hupd.
    match type of Hupd with
    | match ?x with _ => _ end = _ => destruct x; [|discriminate]
    end.
    now injection Hupd as _ <-. }
  pose proof (for_uses_factories _ _ _ _ _ Hrun Hblocks) as Hone.
  exists w1. split; [exact Hrun|]. split; [exact Hupd|].
  split; [exact Hw'|]. split; [exact Hone|].
  intros placed.
  assert (List.length (filter is_factory_node placed) <= List.length bs0)
    as Hlen.
  { pose proof (replaced_factories (all_nodes doctree) (map nodes bs0)) as Hr.
    unfold traverse in Hdoc. rewrite Hdoc, length_map in Hr. simpl in Hr.
    apply Hr. apply Forall_map. exact Hone. }
  pose proof (update_nodes_on_nodes doctree bs0 (at_update w1)) as Hon.
  simpl in Hon. fold placed in Hon.
  change (update_nodes doctree bs0 (at_update w1) = Ok (d, w3)) in Hupd.
  rewrite (firstn_all2 _ Hlen), (skipn_all2 _ Hlen), Hupd in Hon.
  subst w3. simpl.
  destruct (res_map (preview_node (_get_records (execution_value (uses w1))))
              (filter is_factory_node placed)) as [previewed|e] eqn:Hpv;
    [|discriminate Hon].
  destruct Hon as [d'' [Hd [Hf [Ho Hm]]]]. injection Hd as <-.
  rewrite app_nil_r in Hf.
  split; [|split; [exact Ho | exact Hm]].
  rewrite Hf. now apply res_map_previewed.
Qed.

End RunUpdate.

Lemma update_nodes_previews_every_factory_node_witness :
  exists w1,
    for_uses Sample.ast_parse Sample.py_exec Sample.visit MetaUsage Sample.env
             SampleFactory.blocks
             (mkWorld (srcdir Sample.env) (uses Sample.world)
                      (dirs Sample.world) (files Sample.world)
                      (calls Sample.world))
    = Ok (fst (fst SampleFactory.after_run), w1)
    /\ update_nodes SampleFactory.doctree (fst (fst SampleFactory.after_run))
                    (at_update w1)
       = Ok (snd (fst SampleFactory.after_run), snd SampleFactory.after_run)
    /\ snd SampleFactory.after_run = at_update w1
    /\ Forall (fun b => factory_count b <= 1)
              (fst (fst SampleFactory.after_run))
    /\ let placed :=
         fst (replaced (map nodes (fst (fst SampleFactory.after_run)))
                       (all_nodes SampleFactory.doctree)) in
       Forall2 (previewed_from
                  (_get_records
                     (execution_value (uses (snd SampleFactory.after_run)))))
               (filter is_factory_node placed)
               (traverse is_factory_node (snd (fst SampleFactory.after_run)))
       /\ traverse is_other_node (snd (fst SampleFactory.after_run))
          = filter is_other_node placed
       /\ map is_factory_node (all_nodes (snd (fst SampleFactory.after_run)))
          = map is_factory_node placed.
Proof.
  apply (update_nodes_previews_every_factory_node
           Sample.ast_parse Sample.py_exec Sample.visit Sample.env
           SampleFactory.doctree SampleFactory.blocks
           (fst (fst SampleFactory.after_run))
           (snd (fst SampleFactory.after_run)) Sample.world
           (snd SampleFactory.after_run)).
  - reflexivity.
  - repeat constructor.
  - vm_compute. reflexivity.
Defined.

(** The run of the factory document: the execution handler has made the
    factory node of the first block, the update has put it in the place of
    the first placeholder and has attached the dataframe of the merged
    metadata to it. *)
Example factory_block_gets_metadata_preview :
  all_nodes (snd (fst SampleFactory.after_run))
  = [FactoryNode "results/merged.qza"
       "https://docs.example.org/tutorial/results/merged.qza"
       "merged.qza" "merged" (Some "id  ph  depth");
     Sample.placeholder "second" false].
Proof. reflexivity. Qed.

(** * Further properties of the module *)

(** ** New records and processed names *)

Lemma py_in_In (k : string) (l : list string) : py_in k l = true <-> In k l.
Proof.
  unfold py_in. rewrite existsb_exists. split.
  - intros [x [Hx Heq]]. apply String.eqb_eq in Heq. now subst.
  - intros H. exists k. split; [exact H | apply String.eqb_refl].
Qed.

Lemma res_map_keyed_refs (d : Dict) (ks : list string) (rs : list ScopeRecord) :
  keyed_by_ref d ->
  res_map (fun k => dict_get k d) ks = Ok rs ->
  map ref rs = ks.
Proof.
  intros Hkeyed. revert rs. induction ks as [|k ks IH]; simpl; intros rs H.
  - now injection H as <-.
  - destruct (dict_get k d) as [r|e] eqn:Hk; simpl in H; [|discriminate].
    destruct (res_map (fun k0 => dict_get k0 d) ks) as [rs0|e];
      simpl in H; [|discriminate].
    injection H as <-. simpl. rewrite (IH rs0 eq_refl).
    apply dict_get_In in Hk. unfold keyed_by_ref in Hkeyed.
    rewrite Forall_forall in Hkeyed. specialize (Hkeyed (k, r) Hk).
    simpl in Hkeyed. now rewrite Hkeyed.
Qed.

Lemma get_new_records_lookups (use : UseState) (processed : list string) :
  exists v,
    get_new_records use processed = Ok v
    /\ res_map (fun k => dict_get k (_get_records use))
               (new_record_keys (_get_records use) processed)
       = Ok (records_of v).
Proof.
  unfold get_new_records.
  pose proof (new_record_keys_incl (_get_records use) processed) as Hincl.
  destruct (new_record_keys (_get_records use) processed) as [|k [|k' ks]].
  - exists (RTuple []). split; reflexivity.
  - destruct (dict_get_of_key k (_get_records use)) as [r [Hr _]].
    { apply Hincl. now left. }
    exists (RBare r). simpl. rewrite Hr. split; reflexivity.
  - destruct (res_map_dict_get (k :: k' :: ks) (_get_records use) Hincl)
      as [rs [Hrs _]].
    exists (RTuple rs). unfold itemgetter. rewrite Hrs. split; reflexivity.
Qed.

(** X1. get_new_records never raises: it returns one record for each key of
    the scope that is not yet processed, in the order of the scope, and when
    the scope is keyed by reference name the names of the records returned
    are exactly those keys. *)
Theorem get_new_records_returns_each_new_key_once (use : UseState)
  (processed : list string) :
  exists v,
    get_new_records use processed = Ok v
    /\ res_map (fun k => dict_get k (_get_records use))
               (new_record_keys (_get_records use) processed)
       = Ok (records_of v)
    /\ List.length (records_of v)
       = List.length (new_record_keys (_get_records use) processed)
    /\ (keyed_by_ref (_get_records use) ->
        map ref (records_of v)
        = new_record_keys (_get_records use) processed).
Proof.
  destruct (get_new_records_lookups use processed) as [v [Hv Hmap]].
  exists v. split; [exact Hv|]. split; [exact Hmap|]. split.
  - destruct (res_map_dict_get
                (new_record_keys (_get_records use) processed)
                (_get_records use)
                (new_record_keys_incl (_get_records use) processed))
      as [rs [Hrs Hlen]].
    rewrite Hmap in Hrs. now injection Hrs as ->.
  - intros Hkeyed. now apply res_map_keyed_refs with (d := _get_records use).
Qed.

Lemma get_new_records_returns_each_new_key_once_witness :
  exists v,
    get_new_records (Sample.push Sample.md (Sample.push Sample.table Sample.fresh))
                    ["table"]
    = Ok v
    /\ map ref (records_of v) = ["md"].
Proof.
  destruct (get_new_records_returns_each_new_key_once
              (Sample.push Sample.md (Sample.push Sample.table Sample.fresh))
              ["table"]) as [v [Hv [_ [_ Hrefs]]]].
  exists v. split; [exact Hv|]. apply Hrefs.
  repeat constructor.
Defined.

(** X2. Once the names of a tuple of new records have been merged into the
    processed names, the same scope has no new record left: asking again
    gives the empty tuple. *)
Theorem merged_records_are_not_new_again (use : UseState)
  (processed processed' : list string) (rs : list ScopeRecord) :
  keyed_by_ref (_get_records use) ->
  get_new_records use processed = Ok (RTuple rs) ->
  update_processed_records (RTuple rs) processed = Ok processed' ->
  get_new_records use processed' = Ok (RTuple []).
Proof.
  intros Hkeyed Hget Hupd.
  destruct (get_new_records_lookups use processed) as [v [Hv Hmap]].
  rewrite Hget in Hv. injection Hv as <-. simpl in Hmap.
  apply (res_map_keyed_refs _ _ _ Hkeyed) in Hmap.
  unfold update_processed_records in Hupd. simpl in Hupd.
  injection Hupd as <-.
  assert (new_record_keys (_get_records use) (processed ++ map ref rs) = [])
    as Hnone.
  { destruct (new_record_keys (_get_records use) (processed ++ map ref rs))
      as [|k ks] eqn:Hks; [reflexivity|].
    assert (In k (k :: ks)) as Hin by now left.
    rewrite <- Hks in Hin. apply new_record_keys_spec in Hin as [Hkey Hnot].
    exfalso. apply Hnot. apply in_or_app.
    destruct (in_dec string_dec k processed) as [Hp|Hp]; [now left|].
    right. rewrite Hmap. apply new_record_keys_spec. now split. }
  unfold get_new_records. now rewrite Hnone.
Qed.

Lemma merged_records_are_not_new_again_witness :
  get_new_records (Sample.push Sample.md (Sample.push Sample.table Sample.fresh))
                  ["table"; "md"]
  = Ok (RTuple []).
Proof.
  apply (merged_records_are_not_new_again
           (Sample.push Sample.md (Sample.push Sample.table Sample.fresh))
           [] ["table"; "md"] [Sample.table; Sample.md]).
  - repeat constructor.
  - reflexivity.
  - reflexivity.
Defined.

(** ** What the handlers keep *)

(** X4. A handler that returns has not changed the code or the tree of the
    block.  The diagnostic handler changes neither the block nor the state;
    the command-line and artifact API handlers change the state by at most
    one render call; the execution handler logs no call. *)
Theorem handlers_render_at_most_once (visit : AST -> Res unit)
  (use : Strategy) (records : PyRecords) (block block' : Block) (env : Env)
  (w w' : World) :
  records_to_nodes visit use records block env w = Ok (block', w') ->
  code block' = code block /\ tree block' = tree block
  /\ match use with
     | DiagnosticUsage => w' = w /\ block' = block
     | ExecutionUsage => calls w' = calls w
     | _ => w' = w \/ w' = with_calls w (calls w ++ [EvRender use])
     end.
Proof.
  intros H.
  destruct (records_to_nodes_keeps_code visit use records block block' env
              w w' H) as [Hcode Htree].
  split; [exact Hcode|]. split; [exact Htree|].
  destruct use; simpl in H.
  - unfold diagnostic in H. destruct (tree block) as [t|]; [|discriminate].
    apply bind_ok in H as [u [w1 [H1 H]]]. apply lift_ok in H1 as [_ ->].
    apply ret_ok in H as [-> ->]. split; reflexivity.
  - unfold cli in H. apply bind_ok in H as [rs [w1 [H1 H]]].
    apply lift_ok in H1 as [_ ->]. now apply cli_records_frame in H.
  - unfold artifact_api in H. apply bind_ok in H as [rs [w1 [H1 H]]].
    apply lift_ok in H1 as [_ ->].
    now apply artifact_api_records_frame in H.
  - now apply execution_keeps_calls in H.
Qed.

Lemma handlers_render_at_most_once_witness :
  code (mkBlock "pass" None
          [UsageExampleNode ["Command Line"] [PyString "qiime tools"]])
  = code (Sample.block "pass" "tutorial" false)
  /\ tree (mkBlock "pass" None
             [UsageExampleNode ["Command Line"] [PyString "qiime tools"]])
     = tree (Sample.block "pass" "tutorial" false)
  /\ (with_calls Sample.world [EvRender CLIUsage] = Sample.world
      \/ with_calls Sample.world [EvRender CLIUsage]
         = with_calls Sample.world (calls Sample.world ++ [EvRender CLIUsage])).
Proof.
  exact (handlers_render_at_most_once Sample.visit CLIUsage
           (RTuple [Sample.table; Sample.rarefied])
           (Sample.block "pass" "tutorial" false)
           (mkBlock "pass" None
              [UsageExampleNode ["Command Line"] [PyString "qiime tools"]])
           Sample.env Sample.world
           (with_calls Sample.world [EvRender CLIUsage]) eq_refl).
Defined.

(** ** Document names and factory nodes *)

Lemma two_last_elements {A : Type} (l : list A) :
  2 <= List.length l -> exists l' a b, l = l' ++ [a; b].
Proof.
  intros Hlen.
  destruct (exists_last (l := l)) as [l1 [b ->]].
  { intros ->. simpl in Hlen. lia. }
  rewrite length_app in Hlen. simpl in Hlen.
  destruct (exists_last (l := l1)) as [l' [a ->]].
  { intros ->. simpl in Hlen. lia. }
  exists l', a, b. now rewrite <- app_assoc.
Qed.

Lemma last_two_app {A : Type} (l : list A) (a b : A) :
  Pathlib.last_two (l ++ [a; b]) = [a; b].
Proof.
  unfold Pathlib.last_two. rewrite length_app. simpl.
  replace (List.length l + 2 - 2) with (List.length l + 0) by lia.
  rewrite skipn_app, Nat.add_0_r, skipn_all.
  replace (List.length l - List.length l) with 0 by lia. reflexivity.
Qed.

(** X5. get_docname raises a type error for a node without source file and
    a value error when the path of the source file has fewer than two
    parts; otherwise it returns the last but one part of the path as the
    root and the last part without its last suffix as the document name. *)
Theorem get_docname_needs_two_path_parts (node : Node) :
  match node_source node with
  | None => get_docname node = Err TypeError
  | Some s =>
      let ps := Pathlib.parts (Pathlib.Path s) in
      if Nat.leb 2 (List.length ps)
      then get_docname node
           = Ok (Pathlib.Path (nth (List.length ps - 2) ps EmptyString),
                 Pathlib.Path
                   (Pathlib.stem (Pathlib.Path (last ps EmptyString))))
      else get_docname node = Err ValueError
  end.
Proof.
  unfold get_docname. destruct (node_source node) as [s|]; [|reflexivity].
  cbv zeta.
  destruct (Nat.leb_spec 2 (List.length (Pathlib.parts (Pathlib.Path s))))
    as [Hlen|Hlen].
  - destruct (two_last_elements _ Hlen) as [l' [a [b Hl]]].
    rewrite Hl, last_two_app. simpl map.
    rewrite length_app. simpl List.length.
    replace (List.length l' + 2 - 2) with (List.length l') by lia.
    rewrite app_nth2 by lia. rewrite Nat.sub_diag. simpl nth.
    replace (l' ++ [a; b]) with ((l' ++ [a]) ++ [b])
      by now rewrite <- app_assoc.
    now rewrite last_last.
  - unfold Pathlib.last_two.
    replace (List.length (Pathlib.parts (Pathlib.Path s)) - 2) with 0 by lia.
    simpl skipn.
    destruct (Pathlib.parts (Pathlib.Path s)) as [|a [|b l]];
      try reflexivity.
    simpl in Hlen. lia.
Qed.

(** X6. factories_to_nodes raises an index error on a block without
    nodes.  When it returns, the last node of the block was a placeholder
    with a source file; it alone has been replaced, by the factory node
    made for its name and document, and the code and the tree of the block
    are as before. *)
Theorem factories_to_nodes_replaces_last_node_only (block : Block)
  (env : Env) :
  (nodes block = [] -> factories_to_nodes block env = Err IndexError)
  /\ forall block',
       factories_to_nodes block env = Ok block' ->
       exists pre src fac name rd,
         nodes block = pre ++ [UsageNode (Some src) fac name]
         /\ get_docname (UsageNode (Some src) fac name) = Ok rd
         /\ nodes block' = pre ++ [factory_node_for env (snd rd) name]
         /\ code block' = code block
         /\ tree block' = tree block.
Proof.
  split.
  - intros H. unfold factories_to_nodes. now rewrite H.
  - intros block' H. unfold factories_to_nodes in H.
    destruct (pop (nodes block)) as [[node rest]|e] eqn:Hpop; [|discriminate].
    apply pop_inv in Hpop. simpl in H.
    destruct (get_docname node) as [rd|e] eqn:Hdoc; [|discriminate].
    simpl in H.
    destruct node as [src fac name| | | |];
      try (unfold get_docname in Hdoc; simpl in Hdoc; discriminate).
    destruct src as [src|];
      [|unfold get_docname in Hdoc; simpl in Hdoc; discriminate].
    simpl in H. injection H as <-.
    exists rest, src, fac, name, rd. repeat split; assumption.
Qed.

Lemma factories_to_nodes_replaces_last_node_only_witness :
  exists pre src fac name rd,
    nodes (Sample.block "load" "table" true)
    = pre ++ [UsageNode (Some src) fac name]
    /\ get_docname (UsageNode (Some src) fac name) = Ok rd
    /\ [FactoryNode "results/table.qza"
          "https://docs.example.org/tutorial/results/table.qza"
          "table.qza" "table" None]
       = pre ++ [factory_node_for Sample.env (snd rd) name]
    /\ "load" = code (Sample.block "load" "table" true)
    /\ None = tree (Sample.block "load" "table" true).
Proof.
  exact (proj2 (factories_to_nodes_replaces_last_node_only
                  (Sample.block "load" "table" true) Sample.env)
           (mkBlock "load" None
              [FactoryNode "results/table.qza"
                 "https://docs.example.org/tutorial/results/table.qza"
                 "table.qza" "table" None])
           eq_refl).
Defined.

Lemma rstrip_append (c : ascii) (s : string) :
  PyStr.rstrip c (s +++ String c EmptyString) = PyStr.rstrip c s.
Proof.
  induction s as [|d s IH]; simpl.
  - now rewrite Ascii.eqb_refl.
  - now rewrite IH.
Qed.

(** X7. The factory node does not depend on trailing slashes of the
    configured base URL: with one more slash at the end of the base URL
    factories_to_nodes gives the same result. *)
Theorem factory_urls_ignore_trailing_slash (block : Block) (env : Env) :
  factories_to_nodes block
    (mkEnv (srcdir env) (base_url env +++ "/") (outdir env))
  = factories_to_nodes block env.
Proof.
  unfold factories_to_nodes. simpl base_url.
  now rewrite (rstrip_append "/" (base_url env)).
Qed.

(** ** The artifact API handler and the execution recorder *)

Lemma artifact_api_records_skip (use : Strategy) (pre : list ScopeRecord) :
  forall (rest : list ScopeRecord) (block block' : Block) (w w' : World),
    find is_action pre = None ->
    artifact_api_records use (pre ++ rest) block w = Ok (block', w') ->
    exists block1, artifact_api_records use rest block1 w = Ok (block', w').
Proof.
  induction pre as [|r0 pre IH]; intros rest block block' w w' Hfind H.
  - now exists block.
  - simpl in Hfind. unfold is_action in Hfind at 1.
    simpl in H.
    destruct (source r0 =? "init_data")%string.
    { apply bind_ok in H as [n [w1 [Hn H]]].
      apply init_data_node_world in Hn as ->.
      destruct (source r0 =? "action")%string; [discriminate|].
      now apply IH in H. }
    destruct (source r0 =? "init_metadata")%string.
    { apply bind_ok in H as [n [w1 [Hn H]]].
      apply init_metadata_node_world in Hn as ->.
      destruct (source r0 =? "action")%string; [discriminate|].
      now apply IH in H. }
    destruct (source r0 =? "action")%string; [discriminate|].
    now apply IH in H.
Qed.

(** X8. The artifact API handler depends on the execution recorder: when it
    returns, every record made by init_data before the first action has a
    record of the same name in the execution recorder whose result is an
    artifact, and every record made by init_metadata one whose result is a
    metadata value.  With no such record in the execution recorder the
    handler raises a key error. *)
Theorem artifact_api_needs_execution_records (use : Strategy)
  (pre post : list ScopeRecord) (r : ScopeRecord) (block : Block) (w : World) :
  find is_action pre = None ->
  (forall block' w',
      artifact_api use (RTuple (pre ++ r :: post)) block w = Ok (block', w') ->
      (source r = "init_data" ->
       exists rec t,
         dict_get (ref r) (_get_records (execution_value (uses w))) = Ok rec
         /\ result rec = Artifact t)
      /\ (source r = "init_metadata" ->
          exists rec df,
            dict_get (ref r) (_get_records (execution_value (uses w)))
            = Ok rec
            /\ result rec = Metadata df))
  /\ (pre = [] ->
      source r = "init_data" \/ source r = "init_metadata" ->
      dict_get (ref r) (_get_records (execution_value (uses w)))
      = Err KeyError ->
      artifact_api use (RTuple (r :: post)) block w = Err KeyError).
Proof.
  intros Hfind. split.
  - intros block' w' H. unfold artifact_api in H.
    apply bind_ok in H as [rs [w1 [H1 H]]]. apply lift_ok in H1 as [H1 ->].
    simpl in H1. injection H1 as <-.
    apply (artifact_api_records_skip use pre _ _ _ _ _ Hfind) in H
      as [block1 H].
    simpl in H. split.
    + intros Hs. rewrite Hs in H. simpl in H.
      apply bind_ok in H as [n [w1 [Hn _]]].
      unfold init_data_node, bind, _get_record, lift in Hn. simpl in Hn.
      destruct (dict_get (ref r) (_get_records (execution_value (uses w))))
        as [rec|e]; [|discriminate].
      destruct (result rec) as [t|df] eqn:Hres; simpl in Hn; [|discriminate].
      now exists rec, t.
    + intros Hs. rewrite Hs in H. simpl in H.
      apply bind_ok in H as [n [w1 [Hn _]]].
      unfold init_metadata_node, bind, _get_record, lift in Hn. simpl in Hn.
      destruct (dict_get (ref r) (_get_records (execution_value (uses w))))
        as [rec|e]; [|discriminate].
      destruct (result rec) as [t|df] eqn:Hres; simpl in Hn; [discriminate|].
      now exists rec, df.
  - intros _ [Hs|Hs] Hget; unfold artifact_api, bind, lift; simpl;
      rewrite Hs; simpl.
    + unfold init_data_node, bind, _get_record. simpl. now rewrite Hget.
    + unfold init_metadata_node, bind, _get_record. simpl. now rewrite Hget.
Qed.

Lemma artifact_api_needs_execution_records_witness :
  artifact_api ArtifactAPIUsage (RTuple [Sample.table; Sample.md])
               (Sample.block "load" "tutorial" false) Sample.world
  = Err KeyError.
Proof.
  apply (proj2 (artifact_api_needs_execution_records ArtifactAPIUsage
                  [] [Sample.md] Sample.table
                  (Sample.block "load" "tutorial" false) Sample.world
                  eq_refl)).
  - reflexivity.
  - now left.
  - reflexivity.
Defined.

(** ** More on the node update *)

Lemma replace_placeholders_no_block :
  forall f : Forest, replace_placeholders [] f = (f, []).
Proof.
  apply (Forest_tree_ind
    (fun t => forall rest,
       replace_placeholders [] rest = (rest, []) ->
       replace_placeholders [] (FCons t rest) = (FCons t rest, []))
    (fun f => replace_placeholders [] f = (f, []))).
  - intros n rest Hrest. simpl. rewrite Hrest.
    now destruct (is_usage_node n).
  - intros tag kids IHkids rest Hrest. simpl. now rewrite IHkids, Hrest.
  - reflexivity.
  - intros t IHt f IHf. now apply IHt.
Qed.

Lemma attach_previews_no_pair (execs : Dict) :
  forall f : Forest, attach_previews execs 0 f = Ok (f, 0).
Proof.
  apply (Forest_tree_ind
    (fun t => forall rest,
       attach_previews execs 0 rest = Ok (rest, 0) ->
       attach_previews execs 0 (FCons t rest) = Ok (FCons t rest, 0))
    (fun f => attach_previews execs 0 f = Ok (f, 0))).
  - intros n rest Hrest. simpl. rewrite Hrest.
    now destruct (is_factory_node n).
  - intros tag kids IHkids rest Hrest. simpl. rewrite IHkids. simpl.
    now rewrite Hrest.
  - reflexivity.
  - intros t IHt f IHf. now apply IHt.
Qed.

(** X9. Without usage blocks the node update returns the document and the
    state as they are, whatever placeholders and factory nodes the document
    holds. *)
Theorem update_nodes_without_blocks (doctree : Forest) (w : World) :
  update_nodes doctree [] w = Ok (doctree, w).
Proof.
  unfold update_nodes. simpl.
  rewrite replace_placeholders_no_block. simpl.
  now rewrite attach_previews_no_pair.
Qed.

Lemma replaced_placeholders_left (ns : list Node) :
  forall pending : list (list Node),
    Forall (Forall (fun n => is_usage_node n = false)) pending ->
    filter is_usage_node (fst (replaced pending ns))
    = skipn (List.length pending) (filter is_usage_node ns).
Proof.
  induction ns as [|n ns IH]; intros pending Hp; simpl.
  - now rewrite skipn_nil.
  - destruct (is_usage_node n) eqn:Hn.
    + destruct pending as [|new pending].
      * specialize (IH [] Hp). destruct (replaced [] ns) as [r p].
        simpl in *. now rewrite Hn, IH.
      * inversion Hp as [|? ? Hnew Hrest]; subst.
        specialize (IH pending Hrest).
        destruct (replaced pending ns) as [r p]. simpl in *.
        rewrite filter_app, IH.
        assert (filter is_usage_node new = []) as ->; [|reflexivity].
        clear -Hnew. induction new as [|m new IHn]; [reflexivity|].
        inversion Hnew as [|? ? Hm Hnew']; subst. simpl. rewrite Hm.
        now apply IHn.
    + specialize (IH pending Hp). destruct (replaced pending ns) as [r p].
      simpl in *. now rewrite Hn.
Qed.

Lemma filter_usage_of_other (ns : list Node) :
  filter is_usage_node (filter is_other_node ns) = filter is_usage_node ns.
Proof.
  induction ns as [|n ns IH]; [reflexivity|]. simpl.
  destruct n; simpl; rewrite ?IH; reflexivity.
Qed.

Lemma update_nodes_other_nodes (doctree d' : Forest) (bs : list Block)
  (w w' : World) :
  update_nodes doctree bs w = Ok (d', w') ->
  w' = w
  /\ traverse is_other_node d'
     = filter is_other_node
         (fst (replaced (map nodes bs) (all_nodes doctree))).
Proof.
  intros H. pose proof (update_nodes_on_nodes doctree bs w) as Hspec.
  cbv zeta in Hspec.
  destruct (res_map (preview_node (_get_records (execution_value (uses w))))
              (firstn (List.length bs)
                 (filter is_factory_node
                    (fst (replaced (map nodes bs) (all_nodes doctree))))))
    as [previewed|e].
  - destruct Hspec as [d'' [Hupd [_ [Hother _]]]].
    rewrite Hupd in H. injection H as <- <-. now split.
  - rewrite Hspec in H. discriminate.
Qed.

(** X10. When no block carries a placeholder among its nodes, the
    placeholders left in the document after the node update are exactly
    those that come after the first n placeholders of the document, n
    being the number of blocks: none is left when there are at least as
    many blocks as placeholders. *)
Theorem update_nodes_leaves_unpaired_placeholders (doctree d' : Forest)
  (bs : list Block) (w w' : World) :
  Forall (fun b => Forall (fun n => is_usage_node n = false) (nodes b)) bs ->
  update_nodes doctree bs w = Ok (d', w') ->
  traverse is_usage_node d'
  = skipn (List.length bs) (traverse is_usage_node doctree).
Proof.
  intros Hbs H. apply update_nodes_other_nodes in H as [_ Hother].
  unfold traverse in *.
  rewrite <- filter_usage_of_other, Hother, filter_usage_of_other.
  rewrite replaced_placeholders_left.
  - now rewrite length_map.
  - clear -Hbs. induction Hbs; simpl; constructor; assumption.
Qed.

Lemma update_nodes_leaves_unpaired_placeholders_witness :
  traverse is_usage_node
    (FCons
       (Element "section"
          (FCons (Leaf (UsageExampleNode ["Command Line"]
                          [PyString "qiime tools"]))
             (FCons (Element "paragraph" FNil)
                (FCons (Leaf (Sample.placeholder "second" false)) FNil))))
       FNil)
  = skipn 1 (traverse is_usage_node Sample.doctree).
Proof.
  apply (update_nodes_leaves_unpaired_placeholders Sample.doctree _
           [mkBlock "pass" None
              [UsageExampleNode ["Command Line"] [PyString "qiime tools"]]]
           Sample.world Sample.world).
  - repeat constructor.
  - reflexivity.
Defined.

Lemma replace_placeholders_none :
  forall (f : Forest) (pending : list (list Node)),
    traverse is_usage_node f = [] ->
    replace_placeholders pending f = (f, pending).
Proof.
  unfold traverse.
  apply (Forest_tree_ind
    (fun t => forall rest,
       (forall pending,
           filter is_usage_node (all_nodes rest) = [] ->
           replace_placeholders pending rest = (rest, pending)) ->
       forall pending,
         filter is_usage_node (all_nodes (FCons t rest)) = [] ->
         replace_placeholders pending (FCons t rest) = (FCons t rest, pending))
    (fun f => forall pending,
       filter is_usage_node (all_nodes f) = [] ->
       replace_placeholders pending f = (f, pending))).
  - intros n rest Hrest pending H. simpl in *.
    destruct (is_usage_node n); [discriminate|]. now rewrite Hrest.
  - intros tag kids IHkids rest Hrest pending H. simpl in *.
    rewrite filter_app in H. apply app_eq_nil in H as [Hk Hr].
    now rewrite IHkids, Hrest.
  - reflexivity.
  - intros t IHt f IHf pending H. now apply IHt.
Qed.

Lemma preview_node_again (execs : Dict) (n n' : Node) :
  preview_node execs n = Ok n' -> preview_node execs n' = Ok n'.
Proof.
  destruct n as [| | | |ru au sa r pv]; simpl; try discriminate.
  destruct (dict_get r execs) as [rec|e] eqn:Hget; simpl; [|discriminate].
  destruct (result rec) as [t|df] eqn:Hres; simpl; intros H;
    injection H as <-; simpl; rewrite Hget; simpl; now rewrite Hres.
Qed.

Lemma attach_previews_again (execs : Dict) :
  forall (f : Forest) (pairs : nat) (f' : Forest) (left : nat),
    attach_previews execs pairs f = Ok (f', left) ->
    attach_previews execs pairs f' = Ok (f', left).
Proof.
  apply (Forest_tree_ind
    (fun t => forall rest,
       (forall pairs f' left,
           attach_previews execs pairs rest = Ok (f', left) ->
           attach_previews execs pairs f' = Ok (f', left)) ->
       forall pairs f' left,
         attach_previews execs pairs (FCons t rest) = Ok (f', left) ->
         attach_previews execs pairs f' = Ok (f', left))
    (fun f => forall pairs f' left,
       attach_previews execs pairs f = Ok (f', left) ->
       attach_previews execs pairs f' = Ok (f', left))).
  - intros n rest Hrest pairs f' left H. simpl in H.
    destruct (is_factory_node n) eqn:Hn.
    + destruct pairs as [|pairs'].
      * destruct (attach_previews execs 0 rest) as [[r k]|e] eqn:Hr;
          simpl in H; [|discriminate].
        injection H as <- <-. simpl. rewrite Hn.
        now rewrite (Hrest 0 r k Hr).
      * destruct (preview_node execs n) as [n'|e] eqn:Hp; simpl in H;
          [|discriminate].
        destruct (attach_previews execs pairs' rest) as [[r k]|e] eqn:Hr;
          simpl in H; [|discriminate].
        injection H as <- <-. simpl.
        rewrite (preview_node_is_factory execs n n' Hp).
        rewrite (preview_node_again execs n n' Hp). simpl.
        now rewrite (Hrest pairs' r k Hr).
    + destruct (attach_previews execs pairs rest) as [[r k]|e] eqn:Hr;
        simpl in H; [|discriminate].
      injection H as <- <-. simpl. rewrite Hn.
      now rewrite (Hrest pairs r k Hr).
  - intros tag kids IHkids rest Hrest pairs f' left H. simpl in H.
    destruct (attach_previews execs pairs kids) as [[ks k1]|e] eqn:Hk;
      simpl in H; [|discriminate].
    destruct (attach_previews execs k1 rest) as [[r k]|e] eqn:Hr;
      simpl in H; [|discriminate].
    injection H as <- <-. simpl.
    rewrite (IHkids pairs ks k1 Hk). simpl.
    now rewrite (Hrest k1 r k Hr).
  - intros pairs f' left H. simpl in H. now injection H as <- <-.
  - intros t IHt f IHf pairs f' left H. now apply (IHt f IHf pairs).
Qed.

(** X11. On a document that holds no placeholder the node update is
    idempotent: updating its own result again, with the same blocks and
    execution records, returns that result unchanged. *)
Theorem update_nodes_twice (doctree d' : Forest) (bs : list Block)
  (w w' : World) :
  traverse is_usage_node doctree = [] ->
  update_nodes doctree bs w = Ok (d', w') ->
  update_nodes d' bs w = Ok (d', w).
Proof.
  intros Hnone H.
  assert (traverse is_usage_node d' = []) as Hnone'.
  { apply update_nodes_other_nodes in H as [_ Hother].
    unfold traverse in *.
    rewrite <- filter_usage_of_other, Hother, filter_usage_of_other.
    clear -Hnone. revert Hnone.
    generalize (map nodes bs) as pending, (all_nodes doctree) as ns.
    intros pending ns. revert pending.
    induction ns as [|n ns IH]; intros pending Hnone; [reflexivity|].
    simpl in *. destruct (is_usage_node n) eqn:Hn; [discriminate|].
    specialize (IH pending Hnone).
    destruct (replaced pending ns) as [r p]. simpl in *. now rewrite Hn. }
  unfold update_nodes in *.
  rewrite (replace_placeholders_none doctree _ Hnone) in H.
  rewrite (replace_placeholders_none d' _ Hnone'). simpl in *.
  destruct (attach_previews (_get_records (execution_value (uses w)))
              (List.length bs) doctree) as [[f k]|e] eqn:Hatt;
    [|discriminate].
  simpl in H. injection H as <- _.
  now rewrite (attach_previews_again _ _ _ _ _ Hatt).
Qed.

Lemma update_nodes_twice_witness :
  let doc :=
    FCons (Leaf (FactoryNode "results/md.qza"
                   "https://docs.example.org/tutorial/results/md.qza"
                   "md.qza" "md" None)) FNil in
  let doc' :=
    FCons (Leaf (FactoryNode "results/md.qza"
                   "https://docs.example.org/tutorial/results/md.qza"
                   "md.qza" "md" (Some "id  ph"))) FNil in
  update_nodes doc' [Sample.block "load" "md" true] Sample.loaded_world
  = Ok (doc', Sample.loaded_world).
Proof.
  exact (update_nodes_twice
           (FCons (Leaf (FactoryNode "results/md.qza"
                           "https://docs.example.org/tutorial/results/md.qza"
                           "md.qza" "md" None)) FNil)
           (FCons (Leaf (FactoryNode "results/md.qza"
                           "https://docs.example.org/tutorial/results/md.qza"
                           "md.qza" "md" (Some "id  ph"))) FNil)
           [Sample.block "load" "md" true]
           Sample.loaded_world Sample.loaded_world eq_refl eq_refl).
Defined.

(** ** More on a run *)

Section RunMore.

Variable ast_parse : string -> Res AST.
Variable py_exec : AST -> Strategy -> UseState -> Res UseState.
Variable visit : AST -> Res unit.

(** X12. A block that leaves exactly one new record in the scope of the
    recorder makes process_block raise: get_new_records hands the record
    on without a tuple around it and neither the handlers that iterate
    their records nor update_processed_records can iterate it. *)
Theorem lone_new_record_raises (use : Strategy) (env : Env)
  (p : list string) (i : nat) (block : Block) (w : World)
  (t : AST) (u : UseState) (k : string) :
  ast_parse (code block) = Ok t ->
  py_exec t use (use_of use (uses w)) = Ok u ->
  new_record_keys (_get_records u) p = [k] ->
  exists e,
    process_block ast_parse py_exec visit use env p i block w = Err e.
Proof.
  intros Hparse Hpy Hone.
  destruct (process_block ast_parse py_exec visit use env p i block w)
    as [[[b' p'] w']|e] eqn:H; [|now exists e].
  exfalso.
  apply process_block_inv in H
    as [t' [u' [v [Hparse' [Hpy' [Hget [_ Hupd]]]]]]].
  rewrite Hparse in Hparse'. injection Hparse' as <-.
  rewrite Hpy in Hpy'. injection Hpy' as <-.
  unfold get_new_records in Hget. rewrite Hone in Hget. simpl in Hget.
  destruct (dict_get k (_get_records u)); simpl in Hget; [|discriminate].
  injection Hget as <-. discriminate Hupd.
Qed.

Lemma records_to_nodes_sets_nodes_only (use : Strategy) (v : PyRecords)
  (block b' : Block) (env : Env) (w w' : World) (t : AST) :
  records_to_nodes visit use v (set_tree block t) env w = Ok (b', w') ->
  code b' = code block /\ tree b' = Some t.
Proof.
  intros H. apply records_to_nodes_keeps_code in H as [Hc Ht].
  now split.
Qed.

Lemma for_blocks_codes (use : Strategy) (env : Env) (blocks : list Block) :
  forall (p : list string) (i : nat) (bs' : list Block) (w w' : World),
    for_blocks ast_parse py_exec visit use env p i blocks w = Ok (bs', w') ->
    map code bs' = map code blocks
    /\ Forall (fun b => exists t, ast_parse (code b) = Ok t
                                  /\ tree b = Some t) bs'.
Proof.
  induction blocks as [|block rest IH]; intros p i bs' w w' H.
  - simpl in H. apply ret_ok in H as [-> _]. split; constructor.
  - simpl in H. apply bind_ok in H as [[b1 p1] [w1 [Hblock H]]].
    apply bind_ok in H as [rest' [w2 [Hrest H]]].
    apply ret_ok in H as [-> _]. simpl in Hrest.
    apply process_block_inv in Hblock
      as [t [u [v [Hparse [_ [_ [Hdisp _]]]]]]].
    apply records_to_nodes_sets_nodes_only in Hdisp as [Hc Ht].
    apply IH in Hrest as [Hcodes Htrees]. simpl. split.
    + now rewrite Hc, Hcodes.
    + constructor; [|exact Htrees]. exists t. now rewrite Hc.
Qed.

(** X13. A completed run keeps the blocks in number and order and leaves
    the code of each block as it was; when at least one recorder has run,
    every block holds the tree its code parses to. *)
Theorem run_keeps_code_and_stores_tree (members : list Strategy) (env : Env) :
  forall (blocks bs' : list Block) (w w' : World),
    for_uses ast_parse py_exec visit members env blocks w = Ok (bs', w') ->
    map code bs' = map code blocks
    /\ (members <> [] ->
        Forall (fun b => exists t, ast_parse (code b) = Ok t
                                   /\ tree b = Some t) bs').
Proof.
  induction members as [|use rest IH]; intros blocks bs' w w' H.
  - simpl in H. apply ret_ok in H as [-> _]. split; [reflexivity|].
    intros Hne. now contradiction Hne.
  - simpl in H. apply bind_ok in H as [bs1 [w1 [Hpass H]]].
    apply for_blocks_codes in Hpass as [Hcodes Htrees].
    destruct rest as [|use' rest].
    + simpl in H. apply ret_ok in H as [-> _]. split; [exact Hcodes|].
      intros _. exact Htrees.
    + apply IH in H as [Hcodes' Htrees']. split; [congruence|].
      intros _. apply Htrees'. discriminate.
Qed.

End RunMore.

Lemma lone_new_record_raises_witness :
  exists e,
    process_block Sample.ast_parse Sample.py_exec Sample.visit
                  ExecutionUsage Sample.env ["table"] 1
                  (Sample.block "load" "tutorial" false) Sample.world
    = Err e.
Proof.
  apply (lone_new_record_raises Sample.ast_parse Sample.py_exec Sample.visit
           ExecutionUsage Sample.env ["table"] 1
           (Sample.block "load" "tutorial" false) Sample.world
           (Module "load") (Sample.push Sample.md (Sample.push Sample.table Sample.fresh))
           "md"); reflexivity.
Defined.

Lemma run_keeps_code_and_stores_tree_witness :
  map code (fst SampleRun.after_passes) = map code SampleRun.blocks
  /\ (MetaUsage <> [] ->
      Forall (fun b => exists t, Sample.ast_parse (code b) = Ok t
                                 /\ tree b = Some t)
             (fst SampleRun.after_passes)).
Proof.
  apply (run_keeps_code_and_stores_tree Sample.ast_parse Sample.py_exec
           Sample.visit MetaUsage Sample.env SampleRun.blocks
           (fst SampleRun.after_passes) Sample.world
           (snd SampleRun.after_passes)).
  vm_compute. reflexivity.
Defined.

(** ** The names in the scope at the end of a pass *)

Section RunCoverage.

Variable ast_parse : string -> Res AST.
Variable py_exec : AST -> Strategy -> UseState -> Res UseState.
Variable visit : AST -> Res unit.

Hypothesis keys_kept : exec_keeps_keys py_exec.

Lemma pass_calls_cover (use : Strategy) (env : Env)
  (p : list string) (i : nat) (blocks bs' : list Block) (w w' : World)
  (cs : list Call) :
  pass_calls ast_parse py_exec visit use env p i blocks w bs' w' cs ->
  blocks <> [] ->
  all_keyed (uses w) ->
  forall k,
    In k (dict_keys (_get_records (use_of use (uses w')))) ->
    In k p
    \/ exists c r,
         In c cs /\ In r (records_of (call_records c)) /\ ref r = k.
Proof.
  induction 1 as [|p p1 i block b1 rest rest' w w1 w' t u v cs
                   Hparse Hpy Hget Hdisp Hupd Hrest IH];
    intros Hne Hall k Hk; [now contradiction Hne|].
  apply records_to_nodes_only_renders in Hdisp as [evs0 [_ [_ Hu]]].
  simpl in Hu.
  assert (keyed_by_ref (_get_records u)) as Hkeyed.
  { apply (keys_kept t use (use_of use (uses w)) u); [apply Hall | exact Hpy]. }
  apply update_processed_records_names in Hupd. subst p1.
  destruct (get_new_records_lookups u p) as [v' [Hv' Hmap]].
  rewrite Hget in Hv'. injection Hv' as <-.
  apply (res_map_keyed_refs _ _ _ Hkeyed) in Hmap.
  assert (forall k0, In k0 (map ref (records_of v)) ->
                     exists c r,
                       In c (mkCall i t v p :: cs)
                       /\ In r (records_of (call_records c)) /\ ref r = k0)
    as Hhere.
  { intros k0 Hk0. apply in_map_iff in Hk0 as [r [Hr Hin]].
    exists (mkCall i t v p), r. split; [now left|]. now split. }
  destruct rest as [|b2 rest2].
  - inversion Hrest; subst. rewrite Hu, use_of_set_use in Hk.
    destruct (in_dec string_dec k p) as [Hp|Hp]; [now left|].
    right. apply Hhere. rewrite Hmap.
    apply new_record_keys_spec. now split.
  - destruct (IH ltac:(discriminate)
                 ltac:(rewrite Hu; now apply all_keyed_set_use) k Hk)
      as [Hp|[c [r [Hc [Hr Hkr]]]]].
    + apply in_app_or in Hp as [Hp|Hp]; [now left|]. right. now apply Hhere.
    + right. exists c, r. split; [now right|]. now split.
Qed.

(** X16. In a completed pass over at least one block, every name under
    which a record is stored in the scope of the recorder at the end of the
    pass is the name of a record that the dispatcher has handed to the
    handler in one of the calls of the pass. *)
Theorem every_scope_name_is_dispatched_in_the_pass (use : Strategy)
  (env : Env) (blocks bs' : list Block) (w w' : World) :
  blocks <> [] ->
  all_keyed (uses w) ->
  for_blocks ast_parse py_exec visit use env [] 0 blocks w = Ok (bs', w') ->
  exists cs,
    pass_calls ast_parse py_exec visit use env [] 0 blocks w bs' w' cs
    /\ forall k,
         In k (dict_keys (_get_records (use_of use (uses w')))) ->
         exists c r,
           In c cs /\ In r (records_of (call_records c)) /\ ref r = k.
Proof.
  intros Hne Hall H.
  apply for_blocks_calls in H as [cs Hcs].
  exists cs. split; [exact Hcs|]. intros k Hk.
  destruct (pass_calls_cover _ _ _ _ _ _ _ _ _ Hcs Hne Hall k Hk)
    as [[]|Hc].
  exact Hc.
Qed.

End RunCoverage.

Lemma every_scope_name_is_dispatched_in_the_pass_witness :
  exists cs,
    pass_calls Sample.ast_parse Sample.py_exec Sample.visit ExecutionUsage
               Sample.env [] 0
               (fst SampleRun.before_execution)
               (snd SampleRun.before_execution)
               (fst SampleRun.after_passes) (snd SampleRun.after_passes) cs
    /\ forall k,
         In k (dict_keys
                 (_get_records
                    (use_of ExecutionUsage
                            (uses (snd SampleRun.after_passes))))) ->
         exists c r,
           In c cs /\ In r (records_of (call_records c)) /\ ref r = k.
Proof.
  apply (every_scope_name_is_dispatched_in_the_pass
           Sample.ast_parse Sample.py_exec Sample.visit
           sample_exec_keeps_keys ExecutionUsage Sample.env
           (fst SampleRun.before_execution) (fst SampleRun.after_passes)
           (snd SampleRun.before_execution) (snd SampleRun.after_passes)).
  - discriminate.
  - intros []; vm_compute; repeat constructor.
  - vm_compute. reflexivity.
Defined.

(** ** A factory node without execution record *)

(** X19. The node update raises a key error when there is at least one
    block and the first factory node of the document, after the
    placeholders have been replaced, has no record in the execution
    recorder. *)
Theorem update_nodes_misses_execution_record (doctree : Forest)
  (bs : list Block) (w : World)
  (ru au sa r : string) (pv : option string) (others : list Node) :
  bs <> [] ->
  filter is_factory_node (fst (replaced (map nodes bs) (all_nodes doctree)))
  = FactoryNode ru au sa r pv :: others ->
  dict_get r (_get_records (execution_value (uses w))) = Err KeyError ->
  update_nodes doctree bs w = Err KeyError.
Proof.
  intros Hne Hfirst Hget.
  pose proof (update_nodes_on_nodes doctree bs w) as Hspec.
  cbv zeta in Hspec. rewrite Hfirst in Hspec.
  destruct bs as [|b bs]; [now contradiction Hne|].
  simpl in Hspec. rewrite Hget in Hspec. exact Hspec.
Qed.

Lemma update_nodes_misses_execution_record_witness :
  update_nodes
    (FCons (Leaf (Sample.placeholder "table" true)) FNil)
    [mkBlock "load" None
       [FactoryNode "results/table.qza"
          "https://docs.example.org/tutorial/results/table.qza"
          "table.qza" "table" None]]
    Sample.world
  = Err KeyError.
Proof.
  apply (update_nodes_misses_execution_record
           (FCons (Leaf (Sample.placeholder "table" true)) FNil)
           [mkBlock "load" None
              [FactoryNode "results/table.qza"
                 "https://docs.example.org/tutorial/results/table.qza"
                 "table.qza" "table" None]]
           Sample.world
           "results/table.qza"
           "https://docs.example.org/tutorial/results/table.qza"
           "table.qza" "table" None []).
  - discriminate.
  - reflexivity.
  - reflexivity.
Defined.
